(** * Query routing and document analysis agents: a shallow embedding

    Embeds [backend/agents/research_agent.py] (class [ResearchAgent]) and
    [backend/agents/orchestrator.py] (class [OrchestrationAgent]).

    Both classes are thin control flow around external capabilities (PDF and
    DOCX readers, the LangChain text splitter, the embedding model, the Chroma
    vector store, the Groq chat model and the LangChain chains built on it).
    The capabilities are not part of the program: they are an environment
    [Env] that answers every request, possibly by raising.  The methods are
    computations in a small state-and-exception monad that threads the
    agent's fields, the log of capability calls made so far and the lines
    printed on standard output. *)

From Stdlib Require Import String Ascii List ZArith Bool Lia DecimalString.
Import ListNotations.
Local Open Scope list_scope.
Local Open Scope string_scope.

(** ** Python strings

    A [str] is modelled as the [string] of its UTF-8 encoding: the program
    only compares, joins and strips strings, and never indexes into one.
    Whitespace is decided character by character, on code points, as
    [str.strip] and [str.isspace] do. *)
Module Py.

(** Bytes [10xxxxxx], which continue a character. *)
Definition is_continuation (c : ascii) : bool :=
  let n := N_of_ascii c in ((128 <=? n) && (n <? 192))%N.

(** The number of bytes announced by the first byte of a character. *)
Definition utf8_len (lead : ascii) : nat :=
  let n := N_of_ascii lead in
  if (n <? 192)%N then 1 else if (n <? 224)%N then 2 else if (n <? 240)%N then 3 else 4.

(** The characters after [current], of which [pending] bytes are still
    awaited. *)
Fixpoint chars_from (pending : nat) (current : string) (s : string) : list string :=
  match s with
  | EmptyString => [current]
  | String c s' =>
      match pending with
      | S k =>
          if is_continuation c then chars_from k (current ++ String c EmptyString) s'
          else current :: chars_from (utf8_len c - 1) (String c EmptyString) s'
      | O => current :: chars_from (utf8_len c - 1) (String c EmptyString) s'
      end
  end.

(** The string cut into its characters, each one the bytes that encode it. *)
Definition chars (s : string) : list string :=
  match s with
  | EmptyString => []
  | String c s' => chars_from (utf8_len c - 1) (String c EmptyString) s'
  end.

Fixpoint continuation_bits (acc : N) (s : string) : N :=
  match s with
  | EmptyString => acc
  | String c s' => continuation_bits (acc * 64 + N_of_ascii c mod 64)%N s'
  end.

(** [v] when it needs the number of bytes it was written with, U+FFFD
    otherwise. *)
Definition at_least (low v : N) : N := if (low <=? v)%N then v else 0xFFFD%N.

(** The code point of one character.  A byte that belongs to no character
    is given a code point of its own, outside the whitespace, as the
    [surrogateescape] handler does. *)
Definition code_point (ch : string) : N :=
  match ch with
  | EmptyString => 0xFFFD%N
  | String lead tail =>
      let n := N_of_ascii lead in
      match String.length tail with
      | 0 => if (n <? 128)%N then n else (0xDC00 + n)%N
      | 1 => if Nat.eqb (utf8_len lead) 2
             then at_least 0x80 (continuation_bits (n mod 32)%N tail) else 0xFFFD%N
      | 2 => if Nat.eqb (utf8_len lead) 3
             then at_least 0x800 (continuation_bits (n mod 16)%N tail) else 0xFFFD%N
      | 3 => if Nat.eqb (utf8_len lead) 4
             then at_least 0x10000 (continuation_bits (n mod 8)%N tail) else 0xFFFD%N
      | _ => 0xFFFD%N
      end
  end.

(** [str.isspace] on one code point: the code points Python treats as
    whitespace (bidirectional class WS, B or S, or category Zs). *)
Definition isspace (n : N) : bool :=
  ((9 <=? n) && (n <=? 13) || (28 <=? n) && (n <=? 32)
   || (n =? 0x85) || (n =? 0xA0) || (n =? 0x1680)
   || (0x2000 <=? n) && (n <=? 0x200A)
   || (n =? 0x2028) || (n =? 0x2029) || (n =? 0x202F)
   || (n =? 0x205F) || (n =? 0x3000))%N.

Definition isspace_char (ch : string) : bool := isspace (code_point ch).

Fixpoint lstrip_chars (l : list string) : list string :=
  match l with
  | [] => []
  | ch :: rest => if isspace_char ch then lstrip_chars rest else l
  end.

Definition rstrip_chars (l : list string) : list string :=
  rev (lstrip_chars (rev l)).

(** [s.lstrip()] and [s.rstrip()] *)
Definition lstrip (s : string) : string := String.concat "" (lstrip_chars (chars s)).
Definition rstrip (s : string) : string := String.concat "" (rstrip_chars (chars s)).

(** [s.strip()] *)
Definition strip (s : string) : string :=
  String.concat "" (rstrip_chars (lstrip_chars (chars s))).

(** [sep.join(xs)] *)
Definition join (sep : string) (xs : list string) : string :=
  String.concat sep xs.

(** Truth value of a [str]: the empty string is falsy. *)
Definition truthy (s : string) : bool :=
  match s with EmptyString => false | _ => true end.

(** Every character of [s] is whitespace (so for the empty string too). *)
Definition all_space (s : string) : bool := forallb isspace_char (chars s).

(** The line feed character. *)
Definition LF : string := String (ascii_of_nat 10) EmptyString.

(** U+2003 EM SPACE and U+3000 IDEOGRAPHIC SPACE. *)
Definition EM_SPACE : string :=
  String (ascii_of_nat 226) (String (ascii_of_nat 128) (String (ascii_of_nat 131) EmptyString)).
Definition IDEOGRAPHIC_SPACE : string :=
  String (ascii_of_nat 227) (String (ascii_of_nat 128) (String (ascii_of_nat 128) EmptyString)).

End Py.

(** ** Values exchanged with the capabilities *)

(** A LangChain [Document]; only [page_content] is ever read. *)
Record Document := mkDocument { page_content : string }.

(** Pydantic schemas handed to [with_structured_output].  The [enum] lists of
    [ResearchQueryType.category] and [RouteQuery.destination] are schema
    annotations on a field of type [str]. *)
Record Keywords := mkKeywords { keywords : list string }.
Record ResearchQueryType := mkResearchQueryType { category : string }.
Record RouteQuery := mkRouteQuery { destination : string }.

Inductive schema := Schema_Keywords | Schema_ResearchQueryType | Schema_RouteQuery.

Definition ResearchQueryType_enum : list string :=
  ["summary"; "keywords"; "abstract"; "question"].
Definition RouteQuery_enum : list string := ["data"; "research"].

(** The object [self.vector_db] holds, named after the call that returned
    it: [Chroma(persist_directory=..)] or
    [Chroma.from_documents(documents=.., persist_directory=..)].  It is a
    handle on the store kept in [persist_directory]; the name records which
    call produced the handle and with which arguments, not what the store
    holds or serves: that is Chroma's business, and both calls of the program
    use the same directory. *)
Inductive Chroma :=
| Chroma_reopened (persist_directory : string)
| Chroma_indexed (documents : list Document) (persist_directory : string).

(** A Python exception caught by [except Exception]; [str_exn] is [str(e)]. *)
Inductive exn := Exception (msg : string).
Definition str_exn (e : exn) : string := match e with Exception m => m end.

(** The [{"type": .., "message": ..}] dict every agent method returns. *)
Definition Response := list (string * string).
Definition text_response (message : string) : Response :=
  [("type", "text"); ("message", message)].

(** ** Capability calls *)
Inductive call :=
| os_path_exists (path : string)
| fitz_read (file_path : string)
    (* fitz.open, page.get_text() on every page, doc.close() *)
| docx_read (file_path : string)
    (* Document(file_path), para.text on every paragraph *)
| HuggingFaceEmbeddings (model_name : string)
| Chroma_open (persist_directory : string)
| Chroma_from_documents (documents : list Document) (persist_directory : string)
| llm_invoke (system human : string)
    (* (prompt | llm).invoke *)
| llm_structured_invoke (s : schema) (system human : string)
    (* (prompt | llm.with_structured_output(s)).invoke *)
| summarize_chain_invoke (documents : list Document)
    (* load_summarize_chain(llm, chain_type="map_reduce").invoke *)
| qa_chain_invoke (retriever : Chroma) (question : string) (chat_history : list string).
    (* ConversationalRetrievalChain.from_llm(..).invoke *)

(** Calls that reach the chat model. *)
Definition is_generation (c : call) : bool :=
  match c with
  | llm_invoke _ _ | llm_structured_invoke _ _ _
  | summarize_chain_invoke _ | qa_chain_invoke _ _ _ => true
  | _ => false
  end.

(** Calls that reach the embedding model or the vector store. *)
Definition is_retrieval (c : call) : bool :=
  match c with
  | HuggingFaceEmbeddings _ | Chroma_open _ | Chroma_from_documents _ _
  | qa_chain_invoke _ _ _ => true
  | _ => false
  end.

(** ** The monad *)
Inductive outcome (A : Type) : Type :=
| Ret (a : A)
| Raise (e : exn).
Arguments Ret {A} a.
Arguments Raise {A} e.

Definition map_outcome {A B} (f : A -> B) (o : outcome A) : outcome B :=
  match o with
  | Ret a => Ret (f a)
  | Raise e => Raise e
  end.

(** What a method can see and change: the object's fields [self], the calls
    made so far and the lines printed so far. *)
Record state (S : Type) := mkState {
  self : S;
  calls : list call;
  stdout : list string
}.
Arguments mkState {S} _ _ _.
Arguments self {S} _.
Arguments calls {S} _.
Arguments stdout {S} _.

Definition M (S A : Type) : Type := state S -> outcome A * state S.

Definition ret {S A} (a : A) : M S A := fun st => (Ret a, st).

Definition raise {S A} (e : exn) : M S A := fun st => (Raise e, st).

Definition bind {S A B} (m : M S A) (k : A -> M S B) : M S B :=
  fun st =>
    match m st with
    | (Ret a, st') => k a st'
    | (Raise e, st') => (Raise e, st')
    end.

(** [try: m except Exception as e: h e].  Field updates made by [m] before it
    raised are kept. *)
Definition try_except {S A} (m : M S A) (h : exn -> M S A) : M S A :=
  fun st =>
    match m st with
    | (Ret a, st') => (Ret a, st')
    | (Raise e, st') => h e st'
    end.

Declare Scope py_scope.
Delimit Scope py_scope with py.
Notation "x <- m ;; k" := (bind m (fun x => k))
  (at level 61, m at next level, right associativity) : py_scope.
Notation "m ;;; k" := (bind m (fun _ => k))
  (at level 61, right associativity) : py_scope.
Local Open Scope py_scope.

Definition get_self {S} : M S S := fun st => (Ret (self st), st).

Definition put_self {S} (s : S) : M S unit :=
  fun st => (Ret tt, mkState s (calls st) (stdout st)).

(** [print(line)] *)
Definition print {S} (line : string) : M S unit :=
  fun st => (Ret tt, mkState (self st) (calls st) (stdout st ++ [line])%list).

(** A capability call: the environment answers from the calls made so far;
    the call is logged whether it returns or raises. *)
Definition invoke {S A} (c : call) (answer : list call -> outcome A) : M S A :=
  fun st => (answer (calls st), mkState (self st) (calls st ++ [c])%list (stdout st)).

(** A library function without effects that may still raise. *)
Definition pure_call {S A} (r : outcome A) : M S A := fun st => (r, st).

(** ** The environment *)
Record Env := mkEnv {
  env_path_exists : list call -> string -> bool;
  env_fitz_read : list call -> string -> outcome (list string);
  env_docx_read : list call -> string -> outcome (list string);
  env_embeddings : list call -> string -> outcome unit;
  env_chroma_open : list call -> string -> outcome unit;
  env_chroma_from_documents : list call -> list Document -> string -> outcome unit;
  (* RecursiveCharacterTextSplitter(chunk_size, chunk_overlap).create_documents([text]) *)
  env_create_documents : Z -> Z -> string -> outcome (list Document);
  env_llm : list call -> string -> string -> outcome string;
  env_llm_keywords : list call -> string -> string -> outcome Keywords;
  env_llm_query_type : list call -> string -> string -> outcome ResearchQueryType;
  env_llm_route : list call -> string -> string -> outcome RouteQuery;
  env_summarize_chain : list call -> list Document -> outcome string;
  env_qa_chain : list call -> Chroma -> string -> list string -> outcome string
}.

(** ** [ResearchAgent] (research_agent.py) *)

(** The fields assigned by [__init__]; [self.llm] is a handle that is never
    reassigned, the calls made through it are the [llm_*] and [*_chain] calls. *)
Record ResearchAgent := mkResearchAgent {
  vector_db : option Chroma;
  docs : list Document
}.

Definition persist_directory : string := "backend/vector_store".
Definition embedding_model_name : string := "all-MiniLM-L6-v2".
Definition chunk_size : Z := 1000.
Definition chunk_overlap : Z := 100.

Definition research_system_prompt : string :=
"You are an expert at classifying a user's query for a research agent.
Classify the query into one of the following categories:
- 'summary': If the user asks for a summary, overview, or main points of the entire document.
- 'abstract': If the user specifically asks for the abstract.
- 'keywords': If the user asks for keywords or key terms.
- 'question': If the user is asking a specific question about the document's content. This is a fallback if no other category matches.
".

Definition abstract_system_prompt : string :=
  "You are an expert summarizer. Provide a detailed summary of the abstract from the following text.".

Definition keywords_system_prompt : string :=
  "You are an expert at extracting keywords from a research paper.".

Definition NoneType_as_retriever : exn :=
  Exception "'NoneType' object has no attribute 'as_retriever'".

Definition set_vector_db (v : option Chroma) : M ResearchAgent unit :=
  s <- get_self ;; put_self (mkResearchAgent v (docs s)).

Definition set_docs (ds : list Document) : M ResearchAgent unit :=
  s <- get_self ;; put_self (mkResearchAgent (vector_db s) ds).

Section ResearchAgentMethods.

Variable E : Env.

(** [ResearchAgent.__init__] *)
Definition ResearchAgent_init : M ResearchAgent unit :=
  set_vector_db None ;;;
  found <- invoke (os_path_exists persist_directory)
             (fun h => Ret (env_path_exists E h persist_directory)) ;;
  (if found : bool then
     invoke (HuggingFaceEmbeddings embedding_model_name)
       (fun h => env_embeddings E h embedding_model_name) ;;;
     invoke (Chroma_open persist_directory)
       (fun h => env_chroma_open E h persist_directory) ;;;
     set_vector_db (Some (Chroma_reopened persist_directory))
   else ret tt) ;;;
  set_docs [].

(** The text read from the file, [None] for an unsupported type tag. *)
Definition read_full_text (file_path file_type : string)
  : M ResearchAgent (option string) :=
  if file_type =? "pdf" then
    pages <- invoke (fitz_read file_path) (fun h => env_fitz_read E h file_path) ;;
    ret (Some (Py.join "" pages))
  else if file_type =? "docx" then
    paras <- invoke (docx_read file_path) (fun h => env_docx_read E h file_path) ;;
    ret (Some (Py.join Py.LF paras))
  else ret None.

(** [ResearchAgent.ingest_document] *)
Definition ingest_document (file_path file_type : string)
  : M ResearchAgent Response :=
  try_except
    (read <- read_full_text file_path file_type ;;
     match read with
     | None => ret (text_response "Unsupported file type.")
     | Some full_text =>
         if negb (Py.truthy (Py.strip full_text)) then
           ret (text_response "The document is empty.")
         else
           chunks <- pure_call (env_create_documents E chunk_size chunk_overlap full_text) ;;
           set_docs chunks ;;;
           invoke (HuggingFaceEmbeddings embedding_model_name)
             (fun h => env_embeddings E h embedding_model_name) ;;;
           s <- get_self ;;
           invoke (Chroma_from_documents (docs s) persist_directory)
             (fun h => env_chroma_from_documents E h (docs s) persist_directory) ;;;
           set_vector_db (Some (Chroma_indexed (docs s) persist_directory)) ;;;
           ret (text_response "Document ingested and ready for analysis.")
     end)
    (fun e =>
       print ("Error during document ingestion: " ++ str_exn e) ;;;
       ret (text_response ("Error ingesting the document: " ++ str_exn e))).

(** [ResearchAgent.summarize_paper] *)
Definition summarize_paper : M ResearchAgent Response :=
  s <- get_self ;;
  output_text <- invoke (summarize_chain_invoke (docs s))
                   (fun h => env_summarize_chain E h (docs s)) ;;
  ret (text_response output_text).

(** [ResearchAgent.summarize_abstract] *)
Definition summarize_abstract : M ResearchAgent Response :=
  s <- get_self ;;
  match docs s with
  | [] => ret (text_response "No document content available.")
  | first :: _ =>
      let human := "Text: " ++ page_content first in
      content <- invoke (llm_invoke abstract_system_prompt human)
                   (fun h => env_llm E h abstract_system_prompt human) ;;
      ret (text_response content)
  end.

(** [ResearchAgent.extract_keywords] *)
Definition extract_keywords : M ResearchAgent Response :=
  s <- get_self ;;
  match docs s with
  | [] => ret (text_response "No document content available.")
  | _ :: _ =>
      let text_for_keywords := Py.join " " (map page_content (firstn 4 (docs s))) in
      let human :=
        "Extract the most important keywords from the following text: "
        ++ text_for_keywords in
      result <- invoke (llm_structured_invoke Schema_Keywords keywords_system_prompt human)
                  (fun h => env_llm_keywords E h keywords_system_prompt human) ;;
      ret (text_response (Py.join ", " (keywords result)))
  end.

(** [ResearchAgent.answer_question] *)
Definition answer_question (question : string) : M ResearchAgent Response :=
  s <- get_self ;;
  match vector_db s with
  | None => raise NoneType_as_retriever
  | Some db =>
      answer <- invoke (qa_chain_invoke db question [])
                  (fun h => env_qa_chain E h db question []) ;;
      ret (text_response answer)
  end.

(** [ResearchAgent.handle_query] *)
Definition handle_query (query : string) : M ResearchAgent Response :=
  s <- get_self ;;
  match vector_db s with
  | None => ret (text_response "No document has been ingested yet.")
  | Some _ =>
      let human := "Classify the following user query: " ++ query in
      try_except
        (query_type <- invoke (llm_structured_invoke Schema_ResearchQueryType
                                 research_system_prompt human)
                         (fun h => env_llm_query_type E h research_system_prompt human) ;;
         if category query_type =? "summary" then summarize_paper
         else if category query_type =? "keywords" then extract_keywords
         else if category query_type =? "abstract" then summarize_abstract
         else answer_question query)
        (fun e =>
           print ("Error classifying research query: " ++ str_exn e
                  ++ ". Defaulting to Q&A.") ;;;
           answer_question query)
  end.

(** The four analysis strategies [handle_query] dispatches to. *)
Inductive strategy :=
| SummarizeWhole
| SummarizeAbstract
| ExtractKeywords
| AnswerQuestion (question : string).

Definition run_strategy (k : strategy) : M ResearchAgent Response :=
  match k with
  | SummarizeWhole => summarize_paper
  | SummarizeAbstract => summarize_abstract
  | ExtractKeywords => extract_keywords
  | AnswerQuestion q => answer_question q
  end.

(** The strategy selected by a category label. *)
Definition strategy_of_category (c query : string) : strategy :=
  if c =? "summary" then SummarizeWhole
  else if c =? "keywords" then ExtractKeywords
  else if c =? "abstract" then SummarizeAbstract
  else AnswerQuestion query.

End ResearchAgentMethods.

(** ** [OrchestrationAgent] (orchestrator.py) *)

Definition route_system_prompt : string :=
"You are an expert at routing a user query to a 'data' agent or a 'research' agent based on the query.

- The 'data' agent handles queries about analyzing numerical or categorical data from tables (like CSVs). This includes calculations, trends, plotting, sales figures, revenue, etc.
- The 'research' agent handles queries about understanding, summarizing, or finding information within text documents (like PDFs).

You must route the user's query to either the 'data' or 'research' agent.
".

Section OrchestrationAgentMethods.

Variable E : Env.

(** [OrchestrationAgent.route_query]; the agent has no field that changes. *)
Definition route_query (query : string) : M unit string :=
  let human := "Route the following user query: " ++ query in
  try_except
    (response <- invoke (llm_structured_invoke Schema_RouteQuery route_system_prompt human)
                   (fun h => env_llm_route E h route_system_prompt human) ;;
     print ("[OrchestrationAgent] Query: " ++ query) ;;;
     print ("[OrchestrationAgent] Routed to: " ++ destination response) ;;;
     ret (destination response))
    (fun e =>
       print ("Error routing query: " ++ str_exn e) ;;;
       ret "research").

(** The routing capability honours the [RouteQuery] schema: a value it
    returns carries one of the labels listed in the field's [enum]. *)
Definition route_schema_respected : Prop :=
  forall h system human r,
    env_llm_route E h system human = Ret r -> In (destination r) RouteQuery_enum.

End OrchestrationAgentMethods.

(** ** Properties of runs *)

(** The calls a run of [m] from [st] added to the log. *)
Definition new_calls {S A} (m : M S A) (st : state S) : list call :=
  skipn (length (calls st)) (calls (snd (m st))).

(** [m] answers [message] and touches neither the fields, the call log nor
    the output. *)
Definition answers_without_calls {S} (m : M S Response) (st : state S)
    (message : string) : Prop :=
  m st = (Ret (text_response message), st).

(** The context [extract_keywords] sends when there are four chunks or more:
    the texts of the first four chunks, separated by single spaces. *)
Definition keywords_context (c0 c1 c2 c3 : Document) : string :=
  page_content c0 ++ " " ++ page_content c1 ++ " "
  ++ page_content c2 ++ " " ++ page_content c3.

Definition keywords_human (c0 c1 c2 c3 : Document) : string :=
  "Extract the most important keywords from the following text: "
  ++ keywords_context c0 c1 c2 c3.

Definition keywords_call (c0 c1 c2 c3 : Document) : call :=
  llm_structured_invoke Schema_Keywords keywords_system_prompt
    (keywords_human c0 c1 c2 c3).

Definition abstract_human (first : Document) : string :=
  "Text: " ++ page_content first.

Definition abstract_call (first : Document) : call :=
  llm_invoke abstract_system_prompt (abstract_human first).

(** The classification request [handle_query] sends for [query]. *)
Definition classify_human (query : string) : string :=
  "Classify the following user query: " ++ query.

Definition classify_call (query : string) : call :=
  llm_structured_invoke Schema_ResearchQueryType research_system_prompt
    (classify_human query).

(** The state once call [c] has been logged. *)
Definition logged {S} (st : state S) (c : call) : state S :=
  mkState (self st) (calls st ++ [c])%list (stdout st).

(** The [except] branch of [handle_query]. *)
Definition classification_fallback (E : Env) (query : string) (e : exn)
  : M ResearchAgent Response :=
  print ("Error classifying research query: " ++ str_exn e
         ++ ". Defaulting to Q&A.") ;;;
  answer_question E query.

(** The routing request [route_query] sends for [query]. *)
Definition route_human (query : string) : string :=
  "Route the following user query: " ++ query.

Definition route_call (query : string) : call :=
  llm_structured_invoke Schema_RouteQuery route_system_prompt (route_human query).

Definition orchestrator_state : state unit := mkState tt [] [].

Definition success_message : string := "Document ingested and ready for analysis.".


(** The chunk lists handed to [Chroma.from_documents] for the store in
    [dir], in the order of the calls. *)
Fixpoint writes_to (dir : string) (log : list call) : list (list Document) :=
  match log with
  | [] => []
  | Chroma_from_documents documents d :: rest =>
      if d =? dir then documents :: writes_to dir rest else writes_to dir rest
  | _ :: rest => writes_to dir rest
  end.


(** ** Concrete environments and agents *)

(** An environment whose answers do not depend on the calls made before. The
    splitter returns the whole text as one chunk. *)
Definition scenario (dir_exists : bool) (file_texts : outcome (list string))
    (index : outcome unit) (query_type : outcome ResearchQueryType)
    (summary answer : outcome string) (route : outcome RouteQuery) : Env :=
  mkEnv
    (fun _ _ => dir_exists)
    (fun _ _ => file_texts)
    (fun _ _ => file_texts)
    (fun _ _ => Ret tt)
    (fun _ _ => Ret tt)
    (fun _ _ _ => index)
    (fun _ _ text => Ret [mkDocument text])
    (fun _ _ human => Ret human)
    (fun _ _ _ => Ret (mkKeywords ["routing"; "retrieval"; "chunking"; "embedding"; "summary"]))
    (fun _ _ _ => query_type)
    (fun _ _ _ => route)
    (fun _ _ => summary)
    (fun _ _ _ _ => answer).

Definition fresh_state : state ResearchAgent :=
  mkState (mkResearchAgent None []) [] [].

Definition old_docs : list Document :=
  [mkDocument "ABSTRACT: lorem ipsum"; mkDocument "body"; mkDocument "conclusion"].

Definition six_docs : list Document :=
  [mkDocument "c0"; mkDocument "c1"; mkDocument "c2";
   mkDocument "c3"; mkDocument "c4"; mkDocument "c5"].

Definition ingested_state (ds : list Document) : state ResearchAgent :=
  mkState (mkResearchAgent (Some (Chroma_indexed ds persist_directory)) ds) [] [].

(** A reachable agent whose chunk list is empty: created while the persisted
    store directory exists. *)
Definition reopened_state : state ResearchAgent :=
  mkState (mkResearchAgent (Some (Chroma_reopened persist_directory)) [])
    [os_path_exists persist_directory;
     HuggingFaceEmbeddings embedding_model_name;
     Chroma_open persist_directory] [].

Definition env_all_fine : Env :=
  scenario false (Ret ["some text"]) (Ret tt)
    (Ret (mkResearchQueryType "question")) (Ret "a summary") (Ret "an answer")
    (Ret (mkRouteQuery "data")).

Definition env_store_on_disk : Env :=
  scenario true (Ret ["some text"]) (Ret tt)
    (Ret (mkResearchQueryType "question")) (Ret "a summary") (Ret "an answer")
    (Ret (mkRouteQuery "research")).

Definition env_summary_fails : Env :=
  scenario false (Ret ["some text"]) (Ret tt)
    (Ret (mkResearchQueryType "summary")) (Raise (Exception "rate limit exceeded"))
    (Ret "an answer") (Ret (mkRouteQuery "research")).

Definition env_blank_file : Env :=
  scenario false (Ret ["   "; Py.LF; Py.EM_SPACE]) (Ret tt)
    (Ret (mkResearchQueryType "question")) (Ret "a summary") (Ret "an answer")
    (Ret (mkRouteQuery "research")).

Definition env_index_fails : Env :=
  scenario false (Ret ["new text"]) (Raise (Exception "embedding unavailable"))
    (Ret (mkResearchQueryType "question")) (Ret "a summary") (Ret "an answer")
    (Ret (mkRouteQuery "research")).

Definition env_route_fails : Env :=
  scenario false (Ret ["some text"]) (Ret tt)
    (Ret (mkResearchQueryType "question")) (Ret "a summary") (Ret "an answer")
    (Raise (Exception "connection refused")).

(** The line the [except] branch of [handle_query] prints. *)
Definition fallback_line (e : exn) : string :=
  "Error classifying research query: " ++ str_exn e ++ ". Defaulting to Q&A.".

(** The lines the [except] branch of [ingest_document] prints and returns. *)
Definition ingestion_error_line (e : exn) : string :=
  "Error during document ingestion: " ++ str_exn e.

Definition ingestion_error_message (e : exn) : string :=
  "Error ingesting the document: " ++ str_exn e.

Definition is_qa_call (c : call) : bool :=
  match c with qa_chain_invoke _ _ _ => true | _ => false end.

Definition env_read_fails : Env :=
  scenario false (Raise (Exception "no such file: missing.pdf")) (Ret tt)
    (Ret (mkResearchQueryType "question")) (Ret "a summary") (Ret "an answer")
    (Ret (mkRouteQuery "research")).

Definition env_qa_fails : Env :=
  scenario false (Ret ["some text"]) (Ret tt)
    (Ret (mkResearchQueryType "summary")) (Raise (Exception "rate limit exceeded"))
    (Raise (Exception "retriever unavailable")) (Ret (mkRouteQuery "research")).

Definition env_classification_fails : Env :=
  scenario false (Ret ["some text"]) (Ret tt)
    (Raise (Exception "schema violation")) (Ret "a summary") (Ret "an answer")
    (Ret (mkRouteQuery "research")).

Definition env_keywords_query : Env :=
  scenario true (Ret ["some text"]) (Ret tt)
    (Ret (mkResearchQueryType "keywords")) (Ret "a summary") (Ret "an answer")
    (Ret (mkRouteQuery "research")).

Definition env_unlisted_route : Env :=
  scenario false (Ret ["some text"]) (Ret tt)
    (Ret (mkResearchQueryType "question")) (Ret "a summary") (Ret "an answer")
    (Ret (mkRouteQuery "finance")).

(** An environment that depends on the calls made before: the
    question-answering chain raises the first time it is run and answers
    from the second time on. *)
Definition env_qa_flaky : Env :=
  mkEnv
    (fun _ _ => false)
    (fun _ _ => Ret ["some text"])
    (fun _ _ => Ret ["some text"])
    (fun _ _ => Ret tt)
    (fun _ _ => Ret tt)
    (fun _ _ _ => Ret tt)
    (fun _ _ text => Ret [mkDocument text])
    (fun _ _ human => Ret human)
    (fun _ _ _ => Ret (mkKeywords ["routing"]))
    (fun _ _ _ => Ret (mkResearchQueryType "question"))
    (fun _ _ _ => Ret (mkRouteQuery "research"))
    (fun _ _ => Ret "a summary")
    (fun h _ _ _ =>
       if existsb is_qa_call h then Ret "second answer"
       else Raise (Exception "timeout")).

(** ** The Streamlit client (frontend/app.py)

    The script reacts to two buttons.  Each reaction is a computation over
    the page: the session entry [uploaded_file_name], the requests posted to
    the backend and the widgets written so far.  [st.spinner] only decorates
    the page while the block runs and is left out. *)

(** A decoded JSON value. *)
#[local] Set Warnings "-register-all".
Inductive json :=
| JNull
| JBool (b : bool)
| JInt (z : Z)
| JFloat (literal : string)
| JStr (s : string)
| JList (items : list json)
| JDict (fields : list (string * json)).

(** [type(v).__name__] *)
Definition type_name (v : json) : string :=
  match v with
  | JNull => "NoneType"
  | JBool _ => "bool"
  | JInt _ => "int"
  | JFloat _ => "float"
  | JStr _ => "str"
  | JList _ => "list"
  | JDict _ => "dict"
  end.

Fixpoint dict_lookup (key : string) (fields : list (string * json)) : option json :=
  match fields with
  | [] => None
  | (k, v) :: rest => if k =? key then Some v else dict_lookup key rest
  end.

(** [v.get(key, default)]; anything that is not a dict has no [get]. *)
Definition json_get (v : json) (key : string) (default : json) : outcome json :=
  match v with
  | JDict fields =>
      Ret (match dict_lookup key fields with Some x => x | None => default end)
  | _ => Raise (Exception ("'" ++ type_name v ++ "' object has no attribute 'get'"))
  end.

(** [v == s] for a [str] literal [s] *)
Definition json_eq_str (v : json) (s : string) : bool :=
  match v with JStr s' => s' =? s | _ => false end.

(** [str(n)] for an [int] *)
Definition str_int (n : Z) : string := NilZero.string_of_int (Z.to_int n).

(** [json.dumps]-independent part of [str(v)]: strings print as themselves,
    [None] and the booleans by name, integers in decimal; the printing of
    floats, lists and dicts is left to [repr_other]. *)
Definition py_str (repr_other : json -> string) (v : json) : string :=
  match v with
  | JStr s => s
  | JNull => "None"
  | JBool true => "True"
  | JBool false => "False"
  | JInt z => str_int z
  | _ => repr_other v
  end.

(** The agents' response dict as the JSON value it is serialised to. *)
Definition json_of_response (r : Response) : json :=
  JDict (map (fun kv => (fst kv, JStr (snd kv))) r).

Inductive widget :=
| st_success (body : json)
| st_error (body : string)
| st_warning (body : string)
| st_write (body : json)
| st_plotly_chart (figure_source : json)
    (* st.plotly_chart(pio.from_json(figure_source), use_container_width=True) *)
| st_caption (body : json).

Definition is_error_widget (w : widget) : bool :=
  match w with st_error _ => true | _ => false end.

(** The file held by [st.file_uploader]. *)
Record UploadedFile := mkUploadedFile {
  file_name : string;
  file_value : string;
  file_type : string
}.

Inductive post_body :=
| post_files (name value type : string)
| post_json (payload : json).

(** What [except] distinguishes in the client. *)
Inductive web_exn :=
| ConnectionError (msg : string)
| OtherException (e : exn).

(** The result of [requests.post]; [response_json] is [response.json()]. *)
Inductive post_result :=
| post_raises (e : web_exn)
| post_response (status_code : Z) (response_json : outcome json).

Record Web := mkWeb {
  BACKEND_URL : string;
  requests_post : string -> post_body -> post_result;
  pio_from_json : json -> outcome unit;
  repr_other : json -> string
}.

Record page := mkPage {
  uploaded_file_name : option json;
  posted : list (string * post_body);
  widgets : list widget
}.

Inductive ui_outcome (A : Type) : Type :=
| UiRet (a : A)
| UiRaise (e : web_exn).
Arguments UiRet {A} a.
Arguments UiRaise {A} e.

Definition UI (A : Type) : Type := page -> ui_outcome A * page.

Definition ui_ret {A} (a : A) : UI A := fun pg => (UiRet a, pg).

Definition ui_bind {A B} (m : UI A) (k : A -> UI B) : UI B :=
  fun pg =>
    match m pg with
    | (UiRet a, pg') => k a pg'
    | (UiRaise e, pg') => (UiRaise e, pg')
    end.

(** [try: m except requests.exceptions.ConnectionError: on_connection
    except Exception as e: on_other e] *)
Definition ui_try {A} (m : UI A) (on_connection : UI A) (on_other : exn -> UI A) : UI A :=
  fun pg =>
    match m pg with
    | (UiRet a, pg') => (UiRet a, pg')
    | (UiRaise (ConnectionError _), pg') => on_connection pg'
    | (UiRaise (OtherException e), pg') => on_other e pg'
    end.

Declare Scope ui_scope.
Delimit Scope ui_scope with ui.
Notation "x <~ m ;; k" := (ui_bind m (fun x => k))
  (at level 61, m at next level, right associativity) : ui_scope.
Notation "m ~;; k" := (ui_bind m (fun _ => k))
  (at level 61, right associativity) : ui_scope.
Local Open Scope ui_scope.

(** An expression that may raise an ordinary exception. *)
Definition ui_eval {A} (o : outcome A) : UI A :=
  fun pg =>
    match o with
    | Ret a => (UiRet a, pg)
    | Raise e => (UiRaise (OtherException e), pg)
    end.

Definition show (w : widget) : UI unit :=
  fun pg => (UiRet tt, mkPage (uploaded_file_name pg) (posted pg) (widgets pg ++ [w])%list).

(** [st.session_state.get("uploaded_file_name")] *)
Definition session_get_file_name : UI json :=
  fun pg =>
    (UiRet (match uploaded_file_name pg with Some v => v | None => JNull end), pg).

(** [st.session_state["uploaded_file_name"] = v] *)
Definition session_set_file_name (v : json) : UI unit :=
  fun pg => (UiRet tt, mkPage (Some v) (posted pg) (widgets pg)).

Definition connection_error_text : string :=
  "Connection error. Is the FastAPI backend running and accessible?".

Definition unexpected_error_text (e : exn) : string :=
  "An unexpected error occurred: " ++ str_exn e.

Section Client.

Variable W : Web.

(** [requests.post(url, ..)]; the request is recorded whether or not an
    answer comes back. *)
Definition post (url : string) (body : post_body) : UI (Z * outcome json) :=
  fun pg =>
    let pg' := mkPage (uploaded_file_name pg) (posted pg ++ [(url, body)])%list (widgets pg) in
    match requests_post W url body with
    | post_raises e => (UiRaise e, pg')
    | post_response status_code response_json => (UiRet (status_code, response_json), pg')
    end.

(** The [else] branch shared by both reactions: a status other than 200. *)
Definition show_http_error (status_code : Z) (response_json : outcome json) : UI unit :=
  body <~ ui_eval response_json ;;
  detail <~ ui_eval (json_get body "detail" (JStr "Unknown error")) ;;
  show (st_error ("Error: " ++ str_int status_code ++ " - "
                  ++ py_str (repr_other W) detail)).

(** The reaction to the "Upload" button (app.py lines 86-106). *)
Definition upload_clicked (uploaded_file : option UploadedFile) : UI unit :=
  match uploaded_file with
  | Some f =>
      ui_try
        (response <~ post (BACKEND_URL W ++ "/upload_file")
                       (post_files (file_name f) (file_value f) (file_type f)) ;;
         if (fst response =? 200)%Z then
           result <~ ui_eval (snd response) ;;
           name <~ ui_eval (json_get result "file_name" JNull) ;;
           session_set_file_name name ~;;
           status_message <~ ui_eval (json_get result "status" JNull) ;;
           show (st_success status_message)
         else show_http_error (fst response) (snd response))
        (show (st_error connection_error_text))
        (fun e => show (st_error (unexpected_error_text e)))
  | None => show (st_warning "Please upload a file first.")
  end.

(** What is drawn for the [response] entry of an answer (lines 126-138). *)
Definition show_response_content (response_content : json) : UI unit :=
  match response_content with
  | JDict fields =>
      response_type <~ ui_eval (json_get response_content "type" JNull) ;;
      if json_eq_str response_type "text" then
        message <~ ui_eval (json_get response_content "message" JNull) ;;
        show (st_write message)
      else if json_eq_str response_type "plot" then
        plot <~ ui_eval (json_get response_content "plot" JNull) ;;
        ui_eval (pio_from_json W plot) ~;;
        show (st_plotly_chart plot) ~;;
        match dict_lookup "caption" fields with
        | Some caption => show (st_caption caption)
        | None => ui_ret tt
        end
      else show (st_warning "Unexpected response type from the backend.")
  | _ => show (st_warning
                 "Unexpected response format. Expected a dictionary from the backend.")
  end.

(** The reaction to the "Analyze" button (app.py lines 113-148). *)
Definition analyze_clicked (query : string) : UI unit :=
  (if Py.truthy query then
     ui_try
       (name <~ session_get_file_name ;;
        response <~ post (BACKEND_URL W ++ "/analyze_query")
                      (post_json (JDict [("query", JStr query); ("file_name", name)])) ;;
        if (fst response =? 200)%Z then
          result <~ ui_eval (snd response) ;;
          agent <~ ui_eval (json_get result "agent" JNull) ;;
          show (st_success (JStr ("Response from " ++ py_str (repr_other W) agent
                                  ++ " agent:"))) ~;;
          response_content <~ ui_eval (json_get result "response" JNull) ;;
          show_response_content response_content
        else show_http_error (fst response) (snd response))
       (show (st_error connection_error_text))
       (fun e => show (st_error (unexpected_error_text e)))
   else show (st_warning "Please enter a query.")).

End Client.

(** [st.session_state.get("uploaded_file_name")] as a value. *)
Definition session_file_name (pg : page) : json :=
  match uploaded_file_name pg with Some v => v | None => JNull end.

(** The request the "Analyze" reaction posts. *)
Definition analyze_request (W : Web) (query : string) (pg : page) : string * post_body :=
  (BACKEND_URL W ++ "/analyze_query",
   post_json (JDict [("query", JStr query); ("file_name", session_file_name pg)])).

(** The request the "Upload" reaction posts. *)
Definition upload_request (W : Web) (f : UploadedFile) : string * post_body :=
  (BACKEND_URL W ++ "/upload_file",
   post_files (file_name f) (file_value f) (file_type f)).

(** [d.get(key, default)] on the fields of a dict. *)
Definition field_or (fields : list (string * json)) (key : string) (default : json) : json :=
  match dict_lookup key fields with Some v => v | None => default end.

(** The line naming the agent that answered. *)
Definition agent_line (W : Web) (fields : list (string * json)) : widget :=
  st_success (JStr ("Response from " ++ py_str (repr_other W) (field_or fields "agent" JNull)
                    ++ " agent:")).

(** The line reporting a status other than 200. *)
Definition http_error_line (W : Web) (status_code : Z) (fields : list (string * json))
  : widget :=
  st_error ("Error: " ++ str_int status_code ++ " - "
            ++ py_str (repr_other W) (field_or fields "detail" (JStr "Unknown error"))).

Definition empty_page : page := mkPage None [] [].

(** A backend at the default address that answers every request with
    [status_code] and [body]. *)
Definition web_answering (status_code : Z) (body : outcome json) : Web :=
  mkWeb "http://localhost:8000"
    (fun _ _ => post_response status_code body)
    (fun _ => Ret tt)
    (fun _ => "").

Definition web_unreachable : Web :=
  mkWeb "http://localhost:8000"
    (fun _ _ => post_raises (ConnectionError "connection refused"))
    (fun _ => Ret tt)
    (fun _ => "").

Definition paper_pdf : UploadedFile :=
  mkUploadedFile "paper.pdf" "%PDF-1.7" "application/pdf".

(** The backend accepts the upload. *)
Definition web_upload_accepted : Web :=
  web_answering 200
    (Ret (JDict [("file_name", JStr "paper.pdf"); ("status", JStr "File uploaded.")])).

(** The backend forwards what [handle_query] returned for an answered
    question. *)
Definition web_research_answer : Web :=
  web_answering 200
    (Ret (JDict [("agent", JStr "research");
                 ("response", json_of_response (text_response "an answer"))])).

(** The backend fails without saying why. *)
Definition web_server_error : Web := web_answering 500 (Ret (JDict [])).

(** The keyword call returns [ks]. *)
Definition env_keywords (ks : list string) : Env :=
  mkEnv
    (fun _ _ => false)
    (fun _ _ => Ret ["some text"])
    (fun _ _ => Ret ["some text"])
    (fun _ _ => Ret tt)
    (fun _ _ => Ret tt)
    (fun _ _ _ => Ret tt)
    (fun _ _ text => Ret [mkDocument text])
    (fun _ _ human => Ret human)
    (fun _ _ _ => Ret (mkKeywords ks))
    (fun _ _ _ => Ret (mkResearchQueryType "keywords"))
    (fun _ _ _ => Ret (mkRouteQuery "research"))
    (fun _ _ => Ret "a summary")
    (fun _ _ _ _ => Ret "an answer").

(** Every file holds a text of its own. *)
Definition env_two_papers : Env :=
  mkEnv
    (fun _ _ => false)
    (fun _ file_path => Ret ["text of " ++ file_path])
    (fun _ file_path => Ret ["text of " ++ file_path])
    (fun _ _ => Ret tt)
    (fun _ _ => Ret tt)
    (fun _ _ _ => Ret tt)
    (fun _ _ text => Ret [mkDocument text])
    (fun _ _ human => Ret human)
    (fun _ _ _ => Ret (mkKeywords ["routing"]))
    (fun _ _ _ => Ret (mkResearchQueryType "question"))
    (fun _ _ _ => Ret (mkRouteQuery "research"))
    (fun _ _ => Ret "a summary")
    (fun _ _ _ _ => Ret "an answer").

(** The agent once it has ingested a first paper. *)
Definition after_first_paper : state ResearchAgent :=
  snd (ingest_document env_two_papers "first.pdf" "pdf" fresh_state).

(** * Theorems *)

(** ** Python string helpers *)

Lemma lstrip_chars_all_space (l : list string) :
  forallb Py.isspace_char l = true -> Py.lstrip_chars l = [].
Proof.
  induction l as [|ch l IH]; simpl; [reflexivity|].
  destruct (Py.isspace_char ch); simpl; [exact IH | discriminate].
Qed.

Lemma lstrip_chars_shape (l : list string) :
  Py.lstrip_chars l = [] \/
  exists ch rest, Py.lstrip_chars l = ch :: rest /\ Py.isspace_char ch = false.
Proof.
  induction l as [|ch l IH]; simpl; [now left|].
  destruct (Py.isspace_char ch) eqn:Hch; [exact IH|].
  right. now exists ch, l.
Qed.

Lemma lstrip_chars_empty (l : list string) :
  Py.lstrip_chars l = [] -> forallb Py.isspace_char l = true.
Proof.
  induction l as [|ch l IH]; simpl; [reflexivity|].
  destruct (Py.isspace_char ch); simpl; [exact IH | discriminate].
Qed.

Lemma lstrip_chars_incl (l : list string) ch :
  In ch (Py.lstrip_chars l) -> In ch l.
Proof.
  induction l as [|x l IH]; simpl; [tauto|].
  destruct (Py.isspace_char x); simpl; auto.
Qed.

Lemma rstrip_chars_incl (l : list string) ch :
  In ch (Py.rstrip_chars l) -> In ch l.
Proof.
  unfold Py.rstrip_chars. intros H.
  apply in_rev, lstrip_chars_incl in H. now apply in_rev.
Qed.

(** Stripping the right end of a list that starts with a character that is
    not whitespace leaves something. *)
Lemma rstrip_chars_keeps_head ch rest :
  Py.isspace_char ch = false -> Py.rstrip_chars (ch :: rest) <> [].
Proof.
  intros Hch Hempty. unfold Py.rstrip_chars in Hempty.
  assert (Hnil : Py.lstrip_chars (rev (ch :: rest)) = []).
  { destruct (Py.lstrip_chars (rev (ch :: rest))) as [|x l] eqn:Hl; [reflexivity|].
    simpl in Hempty. destruct (rev l); discriminate Hempty. }
  apply lstrip_chars_empty in Hnil.
  rewrite forallb_forall in Hnil.
  specialize (Hnil ch). rewrite Hnil in Hch; [discriminate|].
  apply -> in_rev. now left.
Qed.

(** No character of a string is empty. *)
Lemma chars_from_nonempty s pending current :
  current <> "" -> Forall (fun ch => ch <> "") (Py.chars_from pending current s).
Proof.
  revert pending current.
  induction s as [|c s IH]; intros pending current Hcur; simpl.
  - now constructor.
  - destruct pending as [|k].
    + constructor; [exact Hcur|]. apply IH. discriminate.
    + destruct (Py.is_continuation c).
      * apply IH. destruct current; discriminate.
      * constructor; [exact Hcur|]. apply IH. discriminate.
Qed.

Lemma chars_nonempty s : Forall (fun ch => ch <> "") (Py.chars s).
Proof.
  destruct s as [|c s]; simpl; [constructor|].
  apply chars_from_nonempty. discriminate.
Qed.

Lemma concat_nonempty_chars (l : list string) :
  Forall (fun ch => ch <> "") l -> String.concat "" l = "" -> l = [].
Proof.
  intros Hall Hcat. destruct l as [|x l]; [reflexivity|].
  inversion Hall as [|? ? Hx _]; subst.
  simpl in Hcat. destruct l; [contradiction|].
  destruct x; [contradiction | discriminate Hcat].
Qed.

(** [not text.strip()] holds exactly for the empty string and for the
    strings made of whitespace characters only. *)
Lemma strip_falsy_iff (s : string) :
  Py.truthy (Py.strip s) = false <-> Py.all_space s = true.
Proof.
  unfold Py.strip, Py.all_space. split.
  - intros H.
    assert (Hcat : String.concat "" (Py.rstrip_chars (Py.lstrip_chars (Py.chars s))) = "").
    { destruct (String.concat "" (Py.rstrip_chars (Py.lstrip_chars (Py.chars s))));
        [reflexivity | discriminate H]. }
    apply concat_nonempty_chars in Hcat.
    + destruct (lstrip_chars_shape (Py.chars s)) as [He | (ch & rest & He & Hch)].
      * now apply lstrip_chars_empty.
      * rewrite He in Hcat. now apply rstrip_chars_keeps_head in Hcat.
    + apply Forall_forall. intros ch Hin.
      apply rstrip_chars_incl, lstrip_chars_incl in Hin.
      pose proof (chars_nonempty s) as Hall. rewrite Forall_forall in Hall. now apply Hall.
  - intros H. now rewrite (lstrip_chars_all_space _ H).
Qed.

(** Whitespace beyond Latin-1 counts: an em space, an ideographic space and
    a no-break space between blanks and a line feed make a text that strips
    to nothing, while a letter does not. *)
Example strip_unicode_whitespace :
  Py.strip (" " ++ Py.EM_SPACE ++ Py.IDEOGRAPHIC_SPACE ++ Py.LF) = ""
  /\ Py.all_space (Py.EM_SPACE ++ Py.IDEOGRAPHIC_SPACE) = true
  /\ Py.strip (Py.EM_SPACE ++ "a b" ++ Py.LF) = "a b"
  /\ Py.all_space (Py.EM_SPACE ++ "a") = false.
Proof. repeat split; reflexivity. Qed.

(** ** Running the monad *)

Ltac unfold_monad :=
  unfold bind, ret, raise, try_except, invoke, pure_call, print,
    set_docs, set_vector_db, get_self, put_self in *; simpl in *.

Ltac case_outcome :=
  match goal with
  | |- context [match ?o with Ret _ => _ | Raise _ => _ end] =>
      let H := fresh "Hcall" in destruct o eqn:H; simpl
  end.

(** ** [ingest_document] *)

Section IngestDocument.

Variable E : Env.

(** Reading the file changes nothing but the call log. *)
Lemma read_full_text_frame file_path file_type st r st' :
  read_full_text E file_path file_type st = (r, st') ->
  self st' = self st /\ stdout st' = stdout st.
Proof.
  unfold read_full_text.
  destruct (file_type =? "pdf"); [|destruct (file_type =? "docx")];
    unfold_monad; try case_outcome; intros H; inversion H; subst; auto.
Qed.

(** C10. Whatever the file path, the type tag and the behaviour of the
    capabilities, [ingest_document] does not raise: it returns a response
    of the shape [{"type": "text", "message": m}].  A failure of reading,
    splitting, embedding or indexing is reported in the message. *)
Theorem ingest_document_never_raises file_path file_type st :
  exists message st',
    ingest_document E file_path file_type st = (Ret (text_response message), st').
Proof.
  unfold ingest_document, try_except, bind at 1.
  destruct (read_full_text E file_path file_type st) as [[[full_text|]|e] st1].
  - destruct (negb (Py.truthy (Py.strip full_text))).
    + unfold_monad. eauto.
    + unfold_monad.
      destruct (env_create_documents E chunk_size chunk_overlap full_text);
        simpl; [|eauto].
      repeat (case_outcome; [|eauto]). eauto.
  - unfold_monad. eauto.
  - unfold_monad. eauto.
Qed.

(** C4. When the text read from the file is empty or consists of
    whitespace only (every character is one [str.strip] removes, the
    Unicode spaces included), [ingest_document] returns the text response
    "The document is empty." (it does not raise), and the agent's chunk
    list and index are the ones it had before the call; nothing is printed
    and the only call made is the one that read the file. *)
Theorem ingest_document_empty_text file_path file_type st full_text st1 :
  read_full_text E file_path file_type st = (Ret (Some full_text), st1) ->
  Py.all_space full_text = true ->
  ingest_document E file_path file_type st
    = (Ret (text_response "The document is empty."), st1)
  /\ self st1 = self st /\ stdout st1 = stdout st.
Proof.
  intros Hread Hspace.
  split; [|exact (read_full_text_frame _ _ _ _ _ Hread)].
  apply strip_falsy_iff in Hspace.
  unfold ingest_document, try_except, bind at 1.
  rewrite Hread, Hspace. reflexivity.
Qed.


End IngestDocument.

(** C4, at a concrete input: a PDF whose pages hold blanks, a line feed and
    an em space, ingested by an agent that already holds a document. *)
Lemma ingest_document_empty_text_witness :
  ingest_document env_blank_file "blank.pdf" "pdf" (ingested_state old_docs)
    = (Ret (text_response "The document is empty."),
       mkState (self (ingested_state old_docs)) [fitz_read "blank.pdf"] [])
  /\ self (mkState (self (ingested_state old_docs)) [fitz_read "blank.pdf"] [])
     = self (ingested_state old_docs)
  /\ stdout (mkState (self (ingested_state old_docs)) [fitz_read "blank.pdf"] [])
     = stdout (ingested_state old_docs).
Proof.
  apply (ingest_document_empty_text env_blank_file "blank.pdf" "pdf"
           (ingested_state old_docs) (Py.join "" ["   "; Py.LF; Py.EM_SPACE]));
    reflexivity.
Defined.


(** ** The analysis strategies and [handle_query] *)

Lemma skipn_exact_app {A} (l added : list A) : skipn (length l) (l ++ added)%list = added.
Proof. induction l as [|x l IH]; simpl; [reflexivity | exact IH]. Qed.

Section Strategies.

Variable E : Env.

(** C9. On a non-empty chunk list [summarize_abstract] makes exactly one
    call, to the chat model, whose human message is "Text: " followed by
    the text of the first chunk and nothing else; it touches neither the
    embedding model nor the vector store, and returns the model's reply
    (or raises the model's error). *)
Theorem summarize_abstract_first_chunk st first rest :
  docs (self st) = first :: rest ->
  summarize_abstract E st
    = (map_outcome text_response
         (env_llm E (calls st) abstract_system_prompt (abstract_human first)),
       mkState (self st) (calls st ++ [abstract_call first]) (stdout st))
  /\ new_calls (summarize_abstract E) st = [abstract_call first]
  /\ existsb is_retrieval (new_calls (summarize_abstract E) st) = false.
Proof.
  intros Hdocs.
  assert (Hrun : summarize_abstract E st
    = (map_outcome text_response
         (env_llm E (calls st) abstract_system_prompt (abstract_human first)),
       mkState (self st) (calls st ++ [abstract_call first]) (stdout st))).
  { unfold summarize_abstract, bind at 1, get_self. rewrite Hdocs.
    fold (abstract_human first). unfold bind, invoke, ret.
    destruct (env_llm E (calls st) abstract_system_prompt (abstract_human first));
      reflexivity. }
  unfold new_calls. rewrite Hrun. cbn [snd calls].
  rewrite skipn_exact_app. repeat split; reflexivity.
Qed.

Lemma join_first_four c0 c1 c2 c3 c4 rest :
  Py.join " " (map page_content (firstn 4 (c0 :: c1 :: c2 :: c3 :: c4 :: rest)))
  = keywords_context c0 c1 c2 c3.
Proof. reflexivity. Qed.

(** C8, as the code has it. On a chunk list of five chunks or more
    [extract_keywords] makes exactly one call, the structured [Keywords]
    call, whose context is built from chunks 0 to 3 and is the same whatever
    chunk 4 and the later chunks hold; the response is the keyword list that
    call returned, of whatever length, joined with ", ". *)
Theorem extract_keywords_first_four st c0 c1 c2 c3 c4 rest :
  docs (self st) = c0 :: c1 :: c2 :: c3 :: c4 :: rest ->
  extract_keywords E st
    = (map_outcome (fun result => text_response (Py.join ", " (keywords result)))
         (env_llm_keywords E (calls st) keywords_system_prompt
            (keywords_human c0 c1 c2 c3)),
       mkState (self st) (calls st ++ [keywords_call c0 c1 c2 c3]) (stdout st))
  /\ new_calls (extract_keywords E) st = [keywords_call c0 c1 c2 c3].
Proof.
  intros Hdocs.
  assert (Hrun : extract_keywords E st
    = (map_outcome (fun result => text_response (Py.join ", " (keywords result)))
         (env_llm_keywords E (calls st) keywords_system_prompt
            (keywords_human c0 c1 c2 c3)),
       mkState (self st) (calls st ++ [keywords_call c0 c1 c2 c3]) (stdout st))).
  { unfold extract_keywords, bind at 1, get_self. rewrite Hdocs.
    rewrite join_first_four. fold (keywords_human c0 c1 c2 c3).
    unfold bind, invoke, ret.
    destruct (env_llm_keywords E (calls st) keywords_system_prompt
                (keywords_human c0 c1 c2 c3)); reflexivity. }
  unfold new_calls. rewrite Hrun. cbn [snd calls].
  rewrite skipn_exact_app. split; reflexivity.
Qed.

(** C2, as the code has it. With an empty chunk list [summarize_abstract]
    and [extract_keywords] answer "No document content available." and make
    no call at all. *)
Theorem guarded_strategies_on_empty_docs st :
  docs (self st) = [] ->
  answers_without_calls (summarize_abstract E) st "No document content available."
  /\ answers_without_calls (extract_keywords E) st "No document content available.".
Proof.
  intros Hdocs. unfold answers_without_calls.
  unfold summarize_abstract, extract_keywords, bind, get_self.
  rewrite Hdocs. split; reflexivity.
Qed.

(** The dispatch table: the three named categories select their strategy,
    every other label, "question" included, selects question answering. *)
Lemma strategy_of_category_table query :
  map (fun c => strategy_of_category c query) ResearchQueryType_enum
    = [SummarizeWhole; ExtractKeywords; SummarizeAbstract; AnswerQuestion query]
  /\ forall c, ~ In c ["summary"; "keywords"; "abstract"] ->
       strategy_of_category c query = AnswerQuestion query.
Proof.
  split; [reflexivity|].
  intros c Hc. unfold strategy_of_category.
  destruct (String.eqb_spec c "summary") as [->|_]; [exfalso; apply Hc; simpl; auto|].
  destruct (String.eqb_spec c "keywords") as [->|_]; [exfalso; apply Hc; simpl; auto|].
  destruct (String.eqb_spec c "abstract") as [->|_]; [exfalso; apply Hc; simpl; auto|].
  reflexivity.
Qed.

(** Without an index [handle_query] answers at once. *)
Lemma handle_query_no_index query st :
  vector_db (self st) = None ->
  answers_without_calls (handle_query E query) st "No document has been ingested yet.".
Proof.
  intros Hdb. unfold answers_without_calls, handle_query, bind, get_self.
  rewrite Hdb. reflexivity.
Qed.

(** With an index and a classification that returns, [handle_query] runs
    the strategy of the returned category inside the [try]. *)
Lemma handle_query_classified query st db query_type :
  vector_db (self st) = Some db ->
  env_llm_query_type E (calls st) research_system_prompt (classify_human query)
    = Ret query_type ->
  handle_query E query st
    = try_except (run_strategy E (strategy_of_category (category query_type) query))
        (classification_fallback E query) (logged st (classify_call query)).
Proof.
  intros Hdb Hclass.
  unfold handle_query, bind at 1, get_self. rewrite Hdb.
  fold (classify_human query).
  unfold try_except, bind at 1, invoke. rewrite Hclass.
  unfold strategy_of_category, logged, classify_call.
  destruct (category query_type =? "summary"); [reflexivity|].
  destruct (category query_type =? "keywords"); [reflexivity|].
  destruct (category query_type =? "abstract"); reflexivity.
Qed.

(** A classification that raises leads to the fallback. *)
Lemma handle_query_classification_raises query st db e :
  vector_db (self st) = Some db ->
  env_llm_query_type E (calls st) research_system_prompt (classify_human query)
    = Raise e ->
  handle_query E query st
    = classification_fallback E query e (logged st (classify_call query)).
Proof.
  intros Hdb Hclass.
  unfold handle_query, bind at 1, get_self. rewrite Hdb.
  fold (classify_human query).
  unfold try_except, bind at 1, invoke. rewrite Hclass. reflexivity.
Qed.

(** An error raised by the dispatched strategy is caught by the same
    [except] branch: the message about a classification error is printed
    and the question-answering chain is run on the query. *)
Lemma handle_query_strategy_raises query st db query_type e st' :
  vector_db (self st) = Some db ->
  env_llm_query_type E (calls st) research_system_prompt (classify_human query)
    = Ret query_type ->
  run_strategy E (strategy_of_category (category query_type) query)
    (logged st (classify_call query)) = (Raise e, st') ->
  handle_query E query st = classification_fallback E query e st'.
Proof.
  intros Hdb Hclass Hrun.
  rewrite (handle_query_classified _ _ _ _ Hdb Hclass).
  unfold try_except. rewrite Hrun. reflexivity.
Qed.

(** C3, as the code has it. When the persisted store directory does not
    exist at construction time, [__init__] succeeds and leaves the agent
    without an index; [handle_query] on that agent, for every query,
    answers "No document has been ingested yet." and makes no call. *)
Theorem handle_query_before_ingest query st :
  env_path_exists E (calls st) persist_directory = false ->
  exists st1,
    ResearchAgent_init E st = (Ret tt, st1)
    /\ answers_without_calls (handle_query E query) st1
         "No document has been ingested yet.".
Proof.
  intros Hno.
  exists (mkState (mkResearchAgent None [])
            (calls st ++ [os_path_exists persist_directory]) (stdout st)).
  split.
  - unfold ResearchAgent_init. unfold_monad. rewrite Hno. reflexivity.
  - apply handle_query_no_index. reflexivity.
Qed.

End Strategies.

(** C9, at a concrete input: three chunks, the first holding the abstract. *)
Lemma summarize_abstract_first_chunk_witness :
  summarize_abstract env_all_fine (ingested_state old_docs)
    = (Ret (text_response "Text: ABSTRACT: lorem ipsum"),
       mkState (self (ingested_state old_docs))
         [abstract_call (mkDocument "ABSTRACT: lorem ipsum")] [])
  /\ new_calls (summarize_abstract env_all_fine) (ingested_state old_docs)
     = [abstract_call (mkDocument "ABSTRACT: lorem ipsum")]
  /\ existsb is_retrieval
       (new_calls (summarize_abstract env_all_fine) (ingested_state old_docs)) = false.
Proof.
  apply (summarize_abstract_first_chunk env_all_fine (ingested_state old_docs)
           (mkDocument "ABSTRACT: lorem ipsum")
           [mkDocument "body"; mkDocument "conclusion"]).
  reflexivity.
Defined.

(** C8 (as amended), at a concrete input: six chunks. *)
Lemma extract_keywords_first_four_witness :
  extract_keywords env_all_fine (ingested_state six_docs)
    = (Ret (text_response "routing, retrieval, chunking, embedding, summary"),
       mkState (self (ingested_state six_docs))
         [llm_structured_invoke Schema_Keywords keywords_system_prompt
            "Extract the most important keywords from the following text: c0 c1 c2 c3"]
         [])
  /\ new_calls (extract_keywords env_all_fine) (ingested_state six_docs)
     = [llm_structured_invoke Schema_Keywords keywords_system_prompt
          "Extract the most important keywords from the following text: c0 c1 c2 c3"].
Proof.
  apply (extract_keywords_first_four env_all_fine (ingested_state six_docs)
           (mkDocument "c0") (mkDocument "c1") (mkDocument "c2") (mkDocument "c3")
           (mkDocument "c4") [mkDocument "c5"]).
  reflexivity.
Defined.

(** C2 (as amended), at a concrete input: an agent that never ingested. *)
Lemma guarded_strategies_on_empty_docs_witness :
  answers_without_calls (summarize_abstract env_all_fine) fresh_state
    "No document content available."
  /\ answers_without_calls (extract_keywords env_all_fine) fresh_state
       "No document content available.".
Proof.
  apply (guarded_strategies_on_empty_docs env_all_fine fresh_state). reflexivity.
Defined.

(** C2 fails as stated.  On an empty chunk list [summarize_paper] still runs
    the summarize chain and [answer_question] still runs the retrieval chain
    (or raises when there is no index); the two guarded strategies answer with
    another message than "no document ingested". *)
Lemma strategies_on_empty_corpus_counterexample :
  docs (self reopened_state) = []
  /\ new_calls (run_strategy env_all_fine SummarizeWhole) reopened_state
     = [summarize_chain_invoke []]
  /\ new_calls (run_strategy env_all_fine (AnswerQuestion "What is claimed?")) reopened_state
     = [qa_chain_invoke (Chroma_reopened persist_directory) "What is claimed?" []]
  /\ fst (run_strategy env_all_fine (AnswerQuestion "What is claimed?") fresh_state)
     = Raise NoneType_as_retriever
  /\ ~ answers_without_calls (run_strategy env_all_fine SummarizeWhole) reopened_state
         "no document ingested"
  /\ ~ answers_without_calls (run_strategy env_all_fine (AnswerQuestion "What is claimed?"))
         reopened_state "no document ingested"
  /\ ~ answers_without_calls (run_strategy env_all_fine SummarizeAbstract) reopened_state
         "no document ingested"
  /\ ~ answers_without_calls (run_strategy env_all_fine ExtractKeywords) reopened_state
         "no document ingested".
Proof.
  repeat split; try reflexivity;
    unfold answers_without_calls; intros H; vm_compute in H; discriminate H.
Qed.

(** C3 (as amended), at a concrete input: no store directory on disk. *)
Lemma handle_query_before_ingest_witness :
  exists st1,
    ResearchAgent_init env_all_fine fresh_state = (Ret tt, st1)
    /\ answers_without_calls (handle_query env_all_fine "Summarize the paper") st1
         "No document has been ingested yet.".
Proof.
  apply (handle_query_before_ingest env_all_fine "Summarize the paper" fresh_state).
  reflexivity.
Defined.

(** C3 fails as stated.  An agent created while the persisted store
    directory exists reopens that store; before any [ingest_document] call
    [handle_query] then classifies the query and runs the retrieval chain. *)
Lemma handle_query_reopened_store_counterexample :
  ResearchAgent_init env_store_on_disk fresh_state = (Ret tt, reopened_state)
  /\ fst (handle_query env_store_on_disk "What is claimed?" reopened_state)
     = Ret (text_response "an answer")
  /\ new_calls (handle_query env_store_on_disk "What is claimed?") reopened_state
     = [classify_call "What is claimed?";
        qa_chain_invoke (Chroma_reopened persist_directory) "What is claimed?" []]
  /\ forallb (fun c => negb (is_generation c))
       (new_calls (handle_query env_store_on_disk "What is claimed?") reopened_state)
     = false.
Proof. repeat split; reflexivity. Qed.

(** C1 fails on the code.  The query is classified as "summary", the
    summarize chain raises, and [handle_query] does not raise: it prints the
    message meant for a classification error, runs the question-answering
    chain on the query and returns that chain's answer. *)
Example handle_query_summary_error_falls_back :
  fst (run_strategy env_summary_fails SummarizeWhole
         (logged (ingested_state old_docs) (classify_call "Summarize the paper")))
    = Raise (Exception "rate limit exceeded")
  /\ handle_query env_summary_fails "Summarize the paper" (ingested_state old_docs)
     = (Ret (text_response "an answer"),
        mkState (self (ingested_state old_docs))
          [classify_call "Summarize the paper";
           summarize_chain_invoke old_docs;
           qa_chain_invoke (Chroma_indexed old_docs persist_directory)
             "Summarize the paper" []]
          ["Error classifying research query: rate limit exceeded. Defaulting to Q&A."]).
Proof. split; reflexivity. Qed.

(** ** [route_query] *)

Section Routing.

Variable E : Env.

(** When the routing call returns, its label is printed and returned. *)
Lemma route_query_returns query st response :
  env_llm_route E (calls st) route_system_prompt (route_human query) = Ret response ->
  route_query E query st
    = (Ret (destination response),
       mkState (self st) (calls st ++ [route_call query])
         ((stdout st ++ [("[OrchestrationAgent] Query: " ++ query)%string])
            ++ [("[OrchestrationAgent] Routed to: " ++ destination response)%string])%list).
Proof.
  intros Hroute. unfold route_query. fold (route_human query).
  unfold try_except, bind at 1, invoke. rewrite Hroute. reflexivity.
Qed.

(** When the routing call raises, the error is printed and the label is
    "research". *)
Lemma route_query_defaults query st e :
  env_llm_route E (calls st) route_system_prompt (route_human query) = Raise e ->
  route_query E query st
    = (Ret "research",
       mkState (self st) (calls st ++ [route_call query])
         (stdout st ++ [("Error routing query: " ++ str_exn e)%string])%list).
Proof.
  intros Hroute. unfold route_query. fold (route_human query).
  unfold try_except, bind at 1, invoke. rewrite Hroute. reflexivity.
Qed.

(** A routing capability that honours the [RouteQuery] schema makes
    [route_query] return "data" or "research". *)
Theorem route_query_total query st :
  route_schema_respected E ->
  exists label st',
    route_query E query st = (Ret label, st')
    /\ (label = "data" \/ label = "research")
    /\ (forall e,
          env_llm_route E (calls st) route_system_prompt (route_human query) = Raise e ->
          label = "research").
Proof.
  intros Hschema.
  destruct (env_llm_route E (calls st) route_system_prompt (route_human query))
    as [response|e] eqn:Hroute.
  - rewrite (route_query_returns _ _ _ Hroute).
    do 2 eexists. split; [reflexivity|]. split; [|discriminate].
    destruct (Hschema _ _ _ _ Hroute) as [H | [H | []]]; symmetry in H; auto.
  - rewrite (route_query_defaults _ _ _ Hroute).
    do 2 eexists. split; [reflexivity|]. split; [now right | reflexivity].
Qed.

End Routing.

(** The capability labels a plotting request "data". *)
Lemma route_query_total_witness :
  route_schema_respected env_all_fine
  /\ exists label st',
       route_query env_all_fine "Plot revenue by month" orchestrator_state
         = (Ret label, st')
       /\ (label = "data" \/ label = "research")
       /\ (forall e,
             env_llm_route env_all_fine (calls orchestrator_state) route_system_prompt
               (route_human "Plot revenue by month") = Raise e ->
             label = "research").
Proof.
  assert (Hschema : route_schema_respected env_all_fine).
  { intros h system human r Hr. injection Hr as <-. simpl. now left. }
  split; [exact Hschema|].
  exact (route_query_total env_all_fine "Plot revenue by month" orchestrator_state Hschema).
Defined.

(** A routing call that raises is answered with "research". *)
Example route_query_connection_refused :
  route_query env_route_fails "Summarize the paper" orchestrator_state
    = (Ret "research",
       mkState tt [route_call "Summarize the paper"]
         ["Error routing query: connection refused"]).
Proof. reflexivity. Qed.

(** * Further properties of the agents *)

(** ** [ingest_document], path by path *)

(** Every branch of [ingest_document] after the read, in one case analysis. *)
Ltac ingest_branches :=
  unfold ingest_document, try_except, bind at 1;
  unfold read_full_text;
  repeat match goal with
    | |- context [if ?b then _ else _] => destruct b eqn:?
    | |- context [match env_fitz_read ?E ?h ?p with _ => _ end] =>
        destruct (env_fitz_read E h p) eqn:?
    | |- context [match env_docx_read ?E ?h ?p with _ => _ end] =>
        destruct (env_docx_read E h p) eqn:?
    | |- context [match env_create_documents ?E ?a ?b ?t with _ => _ end] =>
        destruct (env_create_documents E a b t) eqn:?
    | |- context [match env_embeddings ?E ?h ?m with _ => _ end] =>
        destruct (env_embeddings E h m) eqn:?
    | |- context [match env_chroma_from_documents ?E ?h ?d ?p with _ => _ end] =>
        destruct (env_chroma_from_documents E h d p) eqn:?
    | _ => progress (unfold bind, ret, invoke, pure_call, print, set_docs,
                       set_vector_db, get_self, put_self;
                     cbn [fst snd self calls stdout docs vector_db])
    end.

Section IngestPaths.

Variable E : Env.

(** An unsupported type tag is refused before anything is read: every tag
    other than "pdf" and "docx" (the comparison is exact, so "PDF" too) gets
    "Unsupported file type." with no call, no output and no field changed. *)
Theorem ingest_document_unsupported_type file_path file_type st :
  file_type <> "pdf" -> file_type <> "docx" ->
  answers_without_calls (ingest_document E file_path file_type) st
    "Unsupported file type.".
Proof.
  intros Hpdf Hdocx. apply String.eqb_neq in Hpdf, Hdocx.
  unfold answers_without_calls, ingest_document, try_except, bind at 1.
  unfold read_full_text. rewrite Hpdf, Hdocx. reflexivity.
Qed.

(** A reader that raises is reported, not propagated: the response carries
    the error text, the error is printed, the only call made is the read,
    and the chunk list and the index are untouched.  This holds for the PDF
    reader and for the DOCX reader. *)
Theorem ingest_document_read_error file_path st e :
  (env_fitz_read E (calls st) file_path = Raise e ->
   ingest_document E file_path "pdf" st
     = (Ret (text_response (ingestion_error_message e)),
        mkState (self st) (calls st ++ [fitz_read file_path])
          (stdout st ++ [ingestion_error_line e])))
  /\ (env_docx_read E (calls st) file_path = Raise e ->
      ingest_document E file_path "docx" st
        = (Ret (text_response (ingestion_error_message e)),
           mkState (self st) (calls st ++ [docx_read file_path])
             (stdout st ++ [ingestion_error_line e]))).
Proof.
  split; intros Hread;
    unfold ingest_document, try_except, bind at 1;
    unfold read_full_text; cbn [String.eqb Ascii.eqb Bool.eqb];
    unfold bind at 1, invoke; rewrite Hread; reflexivity.
Qed.

(** [ingest_document] only reads the file, loads the embedding model and
    builds the index: it adds at most three calls to the log and none of
    them reaches the chat model. *)
Theorem ingest_document_calls file_path file_type st :
  exists added,
    calls (snd (ingest_document E file_path file_type st)) = (calls st ++ added)%list
    /\ length added <= 3
    /\ forallb (fun c => negb (is_generation c)) added = true.
Proof.
  ingest_branches;
    rewrite <- ?app_assoc;
    first [ eexists; split; [reflexivity|]; split; [simpl; lia | reflexivity]
          | exists []; rewrite app_nil_r; split; [reflexivity|];
            split; [simpl; lia | reflexivity] ].
Qed.

Lemma writes_to_app dir (l1 l2 : list call) :
  writes_to dir (l1 ++ l2)%list = (writes_to dir l1 ++ writes_to dir l2)%list.
Proof.
  induction l1 as [|c l1 IH]; [reflexivity|].
  destruct c as [ | | | | |documents d| | | | ]; simpl; try exact IH.
  destruct (d =? dir); simpl; now rewrite IH.
Qed.

(** Re-ingestion adds to what the store directory has been given: a
    successful [ingest_document] hands its chunk list to
    [Chroma.from_documents] for the fixed directory, after the chunk lists
    of the earlier ingestions, and nothing it does withdraws an earlier
    one. *)
Theorem ingest_document_appends_to_store file_path file_type st :
  fst (ingest_document E file_path file_type st) = Ret (text_response success_message) ->
  writes_to persist_directory (calls (snd (ingest_document E file_path file_type st)))
    = (writes_to persist_directory (calls st)
         ++ [docs (self (snd (ingest_document E file_path file_type st)))])%list.
Proof.
  ingest_branches; intros H;
    first [ discriminate H
          | cbn in H; discriminate H
          | rewrite !writes_to_app; cbn [writes_to];
            rewrite String.eqb_refl, !app_nil_r; reflexivity ].
Qed.

(** Unless the call succeeds, the index is the one the agent had before. *)
Lemma ingest_document_keeps_index file_path file_type st :
  fst (ingest_document E file_path file_type st) = Ret (text_response success_message)
  \/ vector_db (self (snd (ingest_document E file_path file_type st)))
     = vector_db (self st).
Proof.
  ingest_branches; first [ now right | now left ].
Qed.

(** A failed ingestion does not unlock [handle_query]: on an agent without
    an index, after an [ingest_document] call that did not return the
    success message, [handle_query] still answers "No document has been
    ingested yet." for every query and makes no call, even when the failed
    call has already stored the new chunk list. *)
Theorem handle_query_after_failed_ingest file_path file_type query st :
  vector_db (self st) = None ->
  fst (ingest_document E file_path file_type st) <> Ret (text_response success_message) ->
  answers_without_calls (handle_query E query)
    (snd (ingest_document E file_path file_type st))
    "No document has been ingested yet.".
Proof.
  intros Hnone Hfailed. apply handle_query_no_index.
  destruct (ingest_document_keeps_index file_path file_type st) as [Hok | Hsame].
  - contradiction.
  - now rewrite Hsame.
Qed.

End IngestPaths.

(** ** [handle_query], path by path *)

(** Every branch of [handle_query] and of the strategies, in one case
    analysis over the answers of the environment. *)
Ltac query_branches :=
  unfold handle_query, run_strategy, classification_fallback, try_except,
    summarize_paper, summarize_abstract, extract_keywords, answer_question;
  repeat match goal with
    | |- context [if ?b then _ else _] => destruct b eqn:?
    | |- context [match env_llm_query_type ?E ?h ?s ?u with _ => _ end] =>
        destruct (env_llm_query_type E h s u) eqn:?
    | |- context [match env_summarize_chain ?E ?h ?d with _ => _ end] =>
        destruct (env_summarize_chain E h d) eqn:?
    | |- context [match env_llm ?E ?h ?s ?u with _ => _ end] =>
        destruct (env_llm E h s u) eqn:?
    | |- context [match env_llm_keywords ?E ?h ?s ?u with _ => _ end] =>
        destruct (env_llm_keywords E h s u) eqn:?
    | |- context [match env_qa_chain ?E ?h ?db ?q ?c with _ => _ end] =>
        destruct (env_qa_chain E h db q c) eqn:?
    | _ => progress (unfold bind, ret, raise, invoke, print, get_self;
                     cbn [fst snd self calls stdout docs vector_db])
    end.

Section QueryPaths.

Variable E : Env.

(** Answering a query never changes the agent: whatever the query, the
    answers of the capabilities and the outcome (a response or an error), the
    chunk list and the index after [handle_query] are those before it. *)
Theorem handle_query_keeps_fields query st :
  self (snd (handle_query E query st)) = self st.
Proof.
  destruct st as [[[db|] [|first rest]] history out];
    query_branches; reflexivity.
Qed.

(** With an index present, [handle_query] first sends the classification
    request for the query, then makes at most two more calls, all of them to
    chains on the chat model: it never reads a file, reloads the embedding
    model or rebuilds the index, and it does not loop. *)
Theorem handle_query_calls query st db :
  vector_db (self st) = Some db ->
  exists rest,
    calls (snd (handle_query E query st))
      = (calls st ++ classify_call query :: rest)%list
    /\ length rest <= 2
    /\ forallb is_generation rest = true.
Proof.
  destruct st as [[v [|first rest]] history out]; cbn [self vector_db calls];
    intros ->; unfold classify_call, classify_human;
    query_branches;
    rewrite <- ?app_assoc; cbn [app];
    eexists; (split; [reflexivity|]); split; (simpl; lia) || reflexivity.
Qed.

(** The only error that leaves [handle_query] is one raised by the
    question-answering chain run from the [except] branch: when
    [handle_query] raises, an index is present, the last call made is that
    chain on the query, the error is the one that call raised, and the
    fallback line has been printed. *)
Theorem handle_query_raises_only_from_qa query st e st' :
  handle_query E query st = (Raise e, st') ->
  exists db before caught,
    vector_db (self st) = Some db
    /\ calls st' = (before ++ [qa_chain_invoke db query []])%list
    /\ env_qa_chain E before db query [] = Raise e
    /\ stdout st' = (stdout st ++ [fallback_line caught])%list.
Proof.
  destruct st as [[[db|] [|first rest]] history out];
    query_branches; intros H; try discriminate H;
    injection H as <- <-; cbn [calls stdout self vector_db];
    do 3 eexists; (split; [reflexivity|]);
    (split; [reflexivity|]); (split; [eassumption|]); reflexivity.
Qed.

(** A classification that raises is absorbed: the error is printed and the
    question-answering chain is run on the query; its answer, or its error,
    is the outcome of [handle_query]. *)
Theorem handle_query_classification_failure query st db e :
  vector_db (self st) = Some db ->
  env_llm_query_type E (calls st) research_system_prompt (classify_human query)
    = Raise e ->
  handle_query E query st
    = (map_outcome text_response
         (env_qa_chain E (calls st ++ [classify_call query]) db query []),
       mkState (self st)
         ((calls st ++ [classify_call query]) ++ [qa_chain_invoke db query []])
         (stdout st ++ [fallback_line e])).
Proof.
  intros Hdb Hclass.
  rewrite (handle_query_classification_raises E query st db e Hdb Hclass).
  unfold classification_fallback, answer_question, logged.
  unfold bind, print, get_self, invoke, ret. cbn [self calls stdout].
  rewrite Hdb. fold (fallback_line e). cbn [self calls stdout].
  destruct (env_qa_chain E (calls st ++ [classify_call query]) db query []);
    reflexivity.
Qed.

(** A query classified as a question (or with any label other than
    "summary", "keywords" and "abstract") whose question-answering chain
    raises has the chain run a second time on the same question: the first
    error is printed as a classification error and the outcome of the second
    run is the outcome of [handle_query]. *)
Theorem handle_query_question_runs_qa_twice query st db query_type e :
  vector_db (self st) = Some db ->
  env_llm_query_type E (calls st) research_system_prompt (classify_human query)
    = Ret query_type ->
  ~ In (category query_type) ["summary"; "keywords"; "abstract"] ->
  env_qa_chain E (calls st ++ [classify_call query]) db query [] = Raise e ->
  handle_query E query st
    = (map_outcome text_response
         (env_qa_chain E
            ((calls st ++ [classify_call query]) ++ [qa_chain_invoke db query []])
            db query []),
       mkState (self st)
         (((calls st ++ [classify_call query]) ++ [qa_chain_invoke db query []])
            ++ [qa_chain_invoke db query []])
         (stdout st ++ [fallback_line e])).
Proof.
  intros Hdb Hclass Hother Hfirst.
  rewrite (handle_query_classified E query st db query_type Hdb Hclass).
  destruct (strategy_of_category_table query) as [_ Hquestion].
  rewrite (Hquestion _ Hother).
  unfold try_except, run_strategy, classification_fallback, answer_question, logged.
  unfold bind, print, get_self, invoke, ret. cbn [self calls stdout].
  rewrite Hdb. cbn [self calls stdout]. rewrite Hfirst.
  cbn [self calls stdout]. rewrite Hdb.
  fold (fallback_line e). cbn [self calls stdout].
  destruct (env_qa_chain E
              ((calls st ++ [classify_call query]) ++ [qa_chain_invoke db query []])
              db query []); reflexivity.
Qed.

(** With an index but no chunk (an agent that reopened a persisted store and
    has not ingested since), a query classified as "keywords" or "abstract"
    is answered "No document content available." after the classification
    call alone. *)
Theorem handle_query_reopened_store_guard query st db query_type :
  vector_db (self st) = Some db ->
  docs (self st) = [] ->
  env_llm_query_type E (calls st) research_system_prompt (classify_human query)
    = Ret query_type ->
  category query_type = "keywords" \/ category query_type = "abstract" ->
  handle_query E query st
    = (Ret (text_response "No document content available."),
       logged st (classify_call query)).
Proof.
  intros Hdb Hdocs Hclass Hcat.
  rewrite (handle_query_classified E query st db query_type Hdb Hclass).
  assert (Hrun : forall k, k = ExtractKeywords \/ k = SummarizeAbstract ->
            run_strategy E k (logged st (classify_call query))
              = (Ret (text_response "No document content available."),
                 logged st (classify_call query))).
  { intros k [-> | ->]; unfold run_strategy, extract_keywords, summarize_abstract,
      bind, get_self, logged; cbn [self]; rewrite Hdocs; reflexivity. }
  unfold try_except. rewrite Hrun; [reflexivity|].
  destruct Hcat as [-> | ->]; [left | right]; reflexivity.
Qed.

End QueryPaths.

(** ** Construction, ingestion and queries together *)

Section Lifecycle.

Variable E : Env.

(** A newly constructed agent holds no chunk, prints nothing, and has an
    index exactly when the persisted store directory existed: the reopened
    store in that case, none otherwise.  What the fields held before is
    forgotten. *)
Theorem ResearchAgent_init_fields st st' :
  ResearchAgent_init E st = (Ret tt, st') ->
  self st'
    = mkResearchAgent
        (if env_path_exists E (calls st) persist_directory
         then Some (Chroma_reopened persist_directory) else None)
        []
  /\ stdout st' = stdout st.
Proof.
  unfold ResearchAgent_init, set_vector_db, set_docs.
  unfold bind, get_self, put_self, invoke, ret. cbn [self calls stdout docs vector_db].
  destruct (env_path_exists E (calls st) persist_directory).
  - destruct (env_embeddings E _ embedding_model_name); [|discriminate].
    cbn [self calls stdout docs vector_db].
    destruct (env_chroma_open E _ persist_directory); [|discriminate].
    cbn [self calls stdout docs vector_db].
    intros H. injection H as <-. split; reflexivity.
  - cbn [self calls stdout docs vector_db].
    intros H. injection H as <-. split; reflexivity.
Qed.

(** When [ingest_document] succeeds the handle it leaves is the one
    [Chroma.from_documents] returned for the chunk list it leaves. *)
Lemma ingest_document_success_index file_path file_type st :
  fst (ingest_document E file_path file_type st) = Ret (text_response success_message) ->
  vector_db (self (snd (ingest_document E file_path file_type st)))
    = Some (Chroma_indexed
              (docs (self (snd (ingest_document E file_path file_type st))))
              persist_directory).
Proof.
  ingest_branches; intros H;
    first [ discriminate H | cbn in H; discriminate H | reflexivity ].
Qed.

(** With an index present the first call of [handle_query] is the
    classification request. *)
Lemma handle_query_classifies_first query st db :
  vector_db (self st) = Some db ->
  exists rest,
    calls (snd (handle_query E query st))
      = (calls st ++ classify_call query :: rest)%list.
Proof.
  destruct st as [[v [|first rest]] history out]; cbn [self vector_db calls];
    intros ->; unfold classify_call, classify_human;
    query_branches; rewrite <- ?app_assoc; cbn [app];
    eexists; reflexivity.
Qed.

(** A successful ingestion unlocks [handle_query]: after an
    [ingest_document] call that returned the success message the agent holds
    a store handle, and [handle_query] sends the classification request for
    every query instead of answering that no document has been ingested. *)
Theorem handle_query_after_ingest file_path file_type query st :
  fst (ingest_document E file_path file_type st) = Ret (text_response success_message) ->
  vector_db (self (snd (ingest_document E file_path file_type st))) <> None
  /\ exists rest,
       calls (snd (handle_query E query (snd (ingest_document E file_path file_type st))))
         = (calls (snd (ingest_document E file_path file_type st))
              ++ classify_call query :: rest)%list.
Proof.
  intros Hok.
  pose proof (ingest_document_success_index file_path file_type st Hok) as Hindex.
  split; [rewrite Hindex; discriminate|].
  exact (handle_query_classifies_first query _ _ Hindex).
Qed.

(** On a document of one to four chunks [extract_keywords] sends the whole
    document: the context of its single call is the text of every chunk, in
    order, joined by single spaces. *)
Theorem extract_keywords_short_document st :
  docs (self st) <> [] ->
  length (docs (self st)) <= 4 ->
  calls (snd (extract_keywords E st))
    = (calls st
         ++ [llm_structured_invoke Schema_Keywords keywords_system_prompt
               ("Extract the most important keywords from the following text: "
                ++ Py.join " " (map page_content (docs (self st))))])%list.
Proof.
  intros Hne Hlen.
  unfold extract_keywords, bind at 1, get_self.
  destruct (docs (self st)) as [|first rest] eqn:Hdocs; [contradiction|].
  rewrite (firstn_all2 (n := 4) (first :: rest)) by exact Hlen.
  unfold bind, invoke, ret.
  match goal with
  | |- context [match ?o with Ret _ => _ | Raise _ => _ end] => destruct o
  end; reflexivity.
Qed.

(** [route_query] returns the label of the routing call as it is, whether or
    not it is one of the labels of the schema, and returns "research" when
    the call raises; these are the only labels it returns.  It makes exactly
    one call, the routing request for the query. *)
Theorem route_query_label query st label :
  (fst (route_query E query st) = Ret label
   <-> env_llm_route E (calls st) route_system_prompt (route_human query)
         = Ret (mkRouteQuery label)
       \/ (label = "research"
           /\ exists e,
                env_llm_route E (calls st) route_system_prompt (route_human query)
                  = Raise e))
  /\ calls (snd (route_query E query st)) = (calls st ++ [route_call query])%list.
Proof.
  destruct (env_llm_route E (calls st) route_system_prompt (route_human query))
    as [[returned]|e] eqn:Hroute.
  - rewrite (route_query_returns E query st _ Hroute). cbn [fst snd calls destination].
    split; [|reflexivity]. split.
    + intros H. injection H as ->. now left.
    + intros [H | (_ & e & H)]; [|discriminate H]. injection H as ->. reflexivity.
  - rewrite (route_query_defaults E query st _ Hroute). cbn [fst snd calls].
    split; [|reflexivity]. split.
    + intros H. injection H as <-. right. split; [reflexivity | now exists e].
    + intros [H | (-> & _)]; [discriminate H | reflexivity].
Qed.

End Lifecycle.

(** ** The further properties at concrete inputs *)

(** An upper-case tag is not a supported type. *)
Lemma ingest_document_unsupported_type_witness :
  answers_without_calls (ingest_document env_all_fine "notes.PDF" "PDF")
    (ingested_state old_docs) "Unsupported file type.".
Proof.
  apply (ingest_document_unsupported_type env_all_fine "notes.PDF" "PDF"
           (ingested_state old_docs)); discriminate.
Defined.

(** A PDF that cannot be opened. *)
Lemma ingest_document_read_error_witness :
  ingest_document env_read_fails "missing.pdf" "pdf" (ingested_state old_docs)
    = (Ret (text_response "Error ingesting the document: no such file: missing.pdf"),
       mkState (self (ingested_state old_docs)) [fitz_read "missing.pdf"]
         ["Error during document ingestion: no such file: missing.pdf"]).
Proof.
  apply (proj1 (ingest_document_read_error env_read_fails "missing.pdf"
                  (ingested_state old_docs)
                  (Exception "no such file: missing.pdf"))).
  reflexivity.
Defined.

(** A second paper ingested after a first one: the store directory has been
    given both. *)
Lemma ingest_document_appends_to_store_witness :
  writes_to persist_directory
    (calls (snd (ingest_document env_two_papers "second.pdf" "pdf" after_first_paper)))
  = [[mkDocument "text of first.pdf"]; [mkDocument "text of second.pdf"]].
Proof.
  apply (ingest_document_appends_to_store env_two_papers "second.pdf" "pdf"
           after_first_paper).
  reflexivity.
Defined.

(** Indexing fails on an agent that never ingested: the chunk of the new
    text is stored, and queries are still refused. *)
Lemma handle_query_after_failed_ingest_witness :
  docs (self (snd (ingest_document env_index_fails "new.pdf" "pdf" fresh_state)))
    = [mkDocument "new text"]
  /\ answers_without_calls (handle_query env_index_fails "What is claimed?")
       (snd (ingest_document env_index_fails "new.pdf" "pdf" fresh_state))
       "No document has been ingested yet.".
Proof.
  split; [reflexivity|].
  apply (handle_query_after_failed_ingest env_index_fails "new.pdf" "pdf"
           "What is claimed?" fresh_state); [reflexivity|].
  intros H. vm_compute in H. discriminate H.
Defined.

(** Three calls: classification, the summarize chain that raises, the
    question-answering chain. *)
Lemma handle_query_calls_witness :
  exists rest,
    calls (snd (handle_query env_summary_fails "Summarize the paper"
                  (ingested_state old_docs)))
      = (calls (ingested_state old_docs)
           ++ classify_call "Summarize the paper" :: rest)%list
    /\ length rest <= 2
    /\ forallb is_generation rest = true.
Proof.
  apply (handle_query_calls env_summary_fails "Summarize the paper"
           (ingested_state old_docs) (Chroma_indexed old_docs persist_directory)).
  reflexivity.
Defined.

(** The summarize chain and then the question-answering chain raise: the
    error that reaches the caller is the second one. *)
Lemma handle_query_raises_only_from_qa_witness :
  exists db before caught,
    vector_db (self (ingested_state old_docs)) = Some db
    /\ [classify_call "Summarize the paper"; summarize_chain_invoke old_docs;
        qa_chain_invoke (Chroma_indexed old_docs persist_directory)
          "Summarize the paper" []]
       = (before ++ [qa_chain_invoke db "Summarize the paper" []])%list
    /\ env_qa_chain env_qa_fails before db "Summarize the paper" []
       = Raise (Exception "retriever unavailable")
    /\ ["Error classifying research query: rate limit exceeded. Defaulting to Q&A."]
       = (stdout (ingested_state old_docs) ++ [fallback_line caught])%list.
Proof.
  apply (handle_query_raises_only_from_qa env_qa_fails "Summarize the paper"
           (ingested_state old_docs) (Exception "retriever unavailable")
           (mkState (self (ingested_state old_docs))
              [classify_call "Summarize the paper"; summarize_chain_invoke old_docs;
               qa_chain_invoke (Chroma_indexed old_docs persist_directory)
                 "Summarize the paper" []]
              ["Error classifying research query: rate limit exceeded. Defaulting to Q&A."])).
  reflexivity.
Defined.

(** The classification call raises and the question is answered all the
    same. *)
Lemma handle_query_classification_failure_witness :
  handle_query env_classification_fails "What is claimed?" (ingested_state old_docs)
    = (Ret (text_response "an answer"),
       mkState (self (ingested_state old_docs))
         [classify_call "What is claimed?";
          qa_chain_invoke (Chroma_indexed old_docs persist_directory)
            "What is claimed?" []]
         ["Error classifying research query: schema violation. Defaulting to Q&A."]).
Proof.
  apply (handle_query_classification_failure env_classification_fails
           "What is claimed?" (ingested_state old_docs)
           (Chroma_indexed old_docs persist_directory) (Exception "schema violation"));
    reflexivity.
Defined.

(** The chain times out once and answers the second time. *)
Lemma handle_query_question_runs_qa_twice_witness :
  handle_query env_qa_flaky "What is claimed?" (ingested_state old_docs)
    = (Ret (text_response "second answer"),
       mkState (self (ingested_state old_docs))
         [classify_call "What is claimed?";
          qa_chain_invoke (Chroma_indexed old_docs persist_directory)
            "What is claimed?" [];
          qa_chain_invoke (Chroma_indexed old_docs persist_directory)
            "What is claimed?" []]
         ["Error classifying research query: timeout. Defaulting to Q&A."]).
Proof.
  apply (handle_query_question_runs_qa_twice env_qa_flaky "What is claimed?"
           (ingested_state old_docs) (Chroma_indexed old_docs persist_directory)
           (mkResearchQueryType "question") (Exception "timeout"));
    try reflexivity.
  intros [H | [H | [H | []]]]; discriminate H.
Defined.

(** A keywords query on an agent that only reopened the store. *)
Lemma handle_query_reopened_store_guard_witness :
  handle_query env_keywords_query "List the key terms" reopened_state
    = (Ret (text_response "No document content available."),
       logged reopened_state (classify_call "List the key terms")).
Proof.
  apply (handle_query_reopened_store_guard env_keywords_query "List the key terms"
           reopened_state (Chroma_reopened persist_directory)
           (mkResearchQueryType "keywords")); try reflexivity.
  left. reflexivity.
Defined.

(** Construction while the store directory exists. *)
Lemma ResearchAgent_init_fields_witness :
  self reopened_state
    = mkResearchAgent (Some (Chroma_reopened persist_directory)) []
  /\ stdout reopened_state = stdout (ingested_state old_docs).
Proof.
  apply (ResearchAgent_init_fields env_store_on_disk (ingested_state old_docs)
           reopened_state).
  reflexivity.
Defined.

(** Ingesting a PDF, then asking. *)
Lemma handle_query_after_ingest_witness :
  vector_db (self (snd (ingest_document env_all_fine "paper.pdf" "pdf" fresh_state)))
    <> None
  /\ exists rest,
       calls (snd (handle_query env_all_fine "What is claimed?"
                     (snd (ingest_document env_all_fine "paper.pdf" "pdf" fresh_state))))
         = (calls (snd (ingest_document env_all_fine "paper.pdf" "pdf" fresh_state))
              ++ classify_call "What is claimed?" :: rest)%list.
Proof.
  apply (handle_query_after_ingest env_all_fine "paper.pdf" "pdf"
           "What is claimed?" fresh_state).
  reflexivity.
Defined.

(** Three chunks: all three are sent. *)
Lemma extract_keywords_short_document_witness :
  calls (snd (extract_keywords env_all_fine (ingested_state old_docs)))
    = [llm_structured_invoke Schema_Keywords keywords_system_prompt
         "Extract the most important keywords from the following text: ABSTRACT: lorem ipsum body conclusion"].
Proof.
  apply (extract_keywords_short_document env_all_fine (ingested_state old_docs)).
  - discriminate.
  - simpl. lia.
Defined.

(** A label outside the schema's list is returned unchanged. *)
Example route_query_unlisted_label :
  route_query env_unlisted_route "Plot revenue by month" orchestrator_state
    = (Ret "finance",
       mkState tt [route_call "Plot revenue by month"]
         ["[OrchestrationAgent] Query: Plot revenue by month";
          "[OrchestrationAgent] Routed to: finance"]).
Proof. reflexivity. Qed.

(** ** The Streamlit client *)

(** Every branch of the two reactions, in one case analysis over the
    backend's answer. *)
Ltac ui_branches :=
  unfold analyze_clicked, upload_clicked, show_response_content, show_http_error,
    ui_try, post;
  repeat match goal with
    | |- context [if ?b then _ else _] => destruct b eqn:?
    | |- context [match requests_post ?W ?u ?b with _ => _ end] =>
        destruct (requests_post W u b) as [[?|?]|? [?|?]] eqn:?
    | |- context [match pio_from_json ?W ?v with _ => _ end] =>
        destruct (pio_from_json W v) eqn:?
    | |- context [match dict_lookup ?k ?f with _ => _ end] =>
        destruct (dict_lookup k f) eqn:?
    | |- context [match ?v with JNull => _ | _ => _ end] =>
        is_var v; destruct v
    | _ => progress (unfold ui_bind, ui_ret, ui_eval, show, json_get,
                       session_get_file_name, session_set_file_name;
                     cbn [fst snd uploaded_file_name posted widgets])
    end.

Section ClientProperties.

Variable W : Web.

(** Neither reaction lets an error escape: whatever the backend does
    (refuses the connection, raises, answers with any status and any body,
    valid JSON or not) and whatever the chart library does, both reactions
    return normally. *)
Theorem client_reactions_never_raise uploaded_file query pg :
  (exists pg', upload_clicked W uploaded_file pg = (UiRet tt, pg'))
  /\ (exists pg', analyze_clicked W query pg = (UiRet tt, pg')).
Proof.
  split.
  - destruct uploaded_file as [f|]; ui_branches; eexists; reflexivity.
  - ui_branches; eexists; reflexivity.
Qed.

(** The "Analyze" reaction posts exactly one request when the query is not
    empty and none when it is: the request goes to [/analyze_query] and
    carries the query and the uploaded file name kept in the session ([None]
    when nothing was uploaded).  The session entry is never changed. *)
Theorem analyze_clicked_request query pg :
  posted (snd (analyze_clicked W query pg))
    = (posted pg ++ (if Py.truthy query then [analyze_request W query pg] else []))%list
  /\ uploaded_file_name (snd (analyze_clicked W query pg)) = uploaded_file_name pg.
Proof.
  unfold analyze_request, session_file_name.
  ui_branches; rewrite ?app_nil_r; split; reflexivity.
Qed.

(** The "Upload" reaction changes the remembered file name only when the
    backend answers 200 with a JSON object; the entry is then the object's
    [file_name], or [None] when the object has no such key.  A refused
    connection, another status or a body that is not an object leave the
    entry as it was. *)
Theorem upload_clicked_session uploaded_file pg :
  uploaded_file_name (snd (upload_clicked W uploaded_file pg)) <> uploaded_file_name pg ->
  exists f fields,
    uploaded_file = Some f
    /\ requests_post W (fst (upload_request W f)) (snd (upload_request W f))
       = post_response 200 (Ret (JDict fields))
    /\ uploaded_file_name (snd (upload_clicked W uploaded_file pg))
       = Some (field_or fields "file_name" JNull).
Proof.
  unfold upload_request, field_or. cbn [fst snd].
  destruct uploaded_file as [f|]; ui_branches; intros Hchanged;
    try (exfalso; apply Hchanged; reflexivity);
    match goal with
    | H : (_ =? 200)%Z = true |- _ => apply Z.eqb_eq in H; subst
    end;
    do 2 eexists; (split; [reflexivity|]); (split; [eassumption|]);
    match goal with
    | H : dict_lookup "file_name" _ = _ |- _ => rewrite H
    end; reflexivity.
Qed.

(** A text response of the agents is shown as text.  When the backend
    answers 200 with an object whose [response] entry is the dict an agent
    method returned for [message], the reaction shows the line naming the
    agent and then writes [message]: no warning, no error. *)
Theorem analyze_clicked_shows_agent_text query pg fields message :
  Py.truthy query = true ->
  requests_post W (fst (analyze_request W query pg)) (snd (analyze_request W query pg))
    = post_response 200 (Ret (JDict fields)) ->
  dict_lookup "response" fields = Some (json_of_response (text_response message)) ->
  widgets (snd (analyze_clicked W query pg))
    = (widgets pg ++ [agent_line W fields; st_write (JStr message)])%list.
Proof.
  unfold analyze_request, session_file_name, agent_line, field_or. cbn [fst snd].
  intros Hquery Hpost Hresponse.
  change (json_of_response (text_response message))
    with (JDict [("type", JStr "text"); ("message", JStr message)]) in Hresponse.
  unfold analyze_clicked. rewrite Hquery.
  unfold ui_try, ui_bind at 1, session_get_file_name.
  unfold ui_bind at 1, post. rewrite Hpost. cbn [fst snd Z.eqb Pos.eqb].
  unfold ui_bind, ui_eval, json_get, show. rewrite Hresponse.
  unfold show_response_content, ui_bind, ui_eval, json_get, show.
  cbn [dict_lookup String.eqb Ascii.eqb Bool.eqb json_eq_str
       fst snd uploaded_file_name posted widgets].
  rewrite <- app_assoc. reflexivity.
Qed.

(** A status other than 200 with a JSON object as body is reported in one
    error line made of the status and the object's [detail]; an object
    without that key is reported as "Unknown error".  Nothing else is
    shown. *)
Theorem analyze_clicked_http_error query pg status_code fields :
  Py.truthy query = true ->
  status_code <> 200%Z ->
  requests_post W (fst (analyze_request W query pg)) (snd (analyze_request W query pg))
    = post_response status_code (Ret (JDict fields)) ->
  widgets (snd (analyze_clicked W query pg))
    = (widgets pg ++ [http_error_line W status_code fields])%list.
Proof.
  unfold analyze_request, session_file_name, http_error_line, field_or. cbn [fst snd].
  intros Hquery Hstatus Hpost. apply Z.eqb_neq in Hstatus.
  unfold analyze_clicked. rewrite Hquery.
  unfold ui_try, ui_bind at 1, session_get_file_name.
  unfold ui_bind at 1, post. rewrite Hpost. cbn [fst snd]. rewrite Hstatus.
  unfold show_http_error, ui_bind, ui_eval, json_get, show. reflexivity.
Qed.

(** The "Analyze" reaction always shows something, and an error line, if
    any, is the last thing it shows: what was drawn before a failure (the
    line naming the agent, for instance) stays on the page. *)
Theorem analyze_clicked_feedback query pg :
  exists added,
    widgets (snd (analyze_clicked W query pg)) = (widgets pg ++ added)%list
    /\ added <> []
    /\ forallb (fun w => negb (is_error_widget w)) (removelast added) = true.
Proof.
  ui_branches; rewrite <- ?app_assoc;
    eexists; (split; [reflexivity|]); split; discriminate || reflexivity.
Qed.

End ClientProperties.

(** The upload of a PDF is accepted and its name remembered. *)
Lemma upload_clicked_session_witness :
  exists f fields,
    Some paper_pdf = Some f
    /\ requests_post web_upload_accepted (fst (upload_request web_upload_accepted f))
         (snd (upload_request web_upload_accepted f))
       = post_response 200 (Ret (JDict fields))
    /\ uploaded_file_name (snd (upload_clicked web_upload_accepted (Some paper_pdf) empty_page))
       = Some (field_or fields "file_name" JNull).
Proof.
  apply (upload_clicked_session web_upload_accepted (Some paper_pdf) empty_page).
  discriminate.
Defined.

(** The answer of the research agent on the page. *)
Lemma analyze_clicked_shows_agent_text_witness :
  widgets (snd (analyze_clicked web_research_answer "What is claimed?" empty_page))
    = [st_success (JStr "Response from research agent:"); st_write (JStr "an answer")].
Proof.
  apply (analyze_clicked_shows_agent_text web_research_answer "What is claimed?"
           empty_page
           [("agent", JStr "research");
            ("response", json_of_response (text_response "an answer"))]
           "an answer"); reflexivity.
Defined.

(** A 500 without detail. *)
Lemma analyze_clicked_http_error_witness :
  widgets (snd (analyze_clicked web_server_error "What is claimed?" empty_page))
    = [st_error "Error: 500 - Unknown error"].
Proof.
  apply (analyze_clicked_http_error web_server_error "What is claimed?" empty_page
           500%Z []); [reflexivity | discriminate | reflexivity].
Defined.

(** A backend that cannot be reached. *)
Example analyze_clicked_unreachable :
  analyze_clicked web_unreachable "What is claimed?" empty_page
    = (UiRet tt,
       mkPage None [analyze_request web_unreachable "What is claimed?" empty_page]
         [st_error connection_error_text]).
Proof. reflexivity. Qed.

(** ** [route_query] and [extract_keywords] on replies outside the schema *)

Section UncheckedReplies.

Variable E : Env.

(** C6, as the code has it. For every query and every behaviour of the
    routing capability, [route_query] does not raise; it returns "research"
    whenever the routing call raises, and otherwise the label the call
    returned, as it is.  That label is "data" or "research" when the
    capability keeps to the list of the [RouteQuery] schema; the code does
    not check it. *)
Theorem route_query_outcome query st :
  exists label st',
    route_query E query st = (Ret label, st')
    /\ (forall e,
          env_llm_route E (calls st) route_system_prompt (route_human query) = Raise e ->
          label = "research")
    /\ (forall response,
          env_llm_route E (calls st) route_system_prompt (route_human query)
            = Ret response ->
          label = destination response)
    /\ (route_schema_respected E -> In label RouteQuery_enum).
Proof.
  destruct (env_llm_route E (calls st) route_system_prompt (route_human query))
    as [response|e] eqn:Hroute.
  - rewrite (route_query_returns E query st _ Hroute).
    do 2 eexists. split; [reflexivity|]. split; [discriminate|]. split.
    + intros r Hr. now injection Hr as <-.
    + intros Hschema. exact (Hschema _ _ _ _ Hroute).
  - rewrite (route_query_defaults E query st _ Hroute).
    do 2 eexists. split; [reflexivity|]. split; [reflexivity|]. split.
    + discriminate.
    + intros _. simpl. now right; left.
Qed.

End UncheckedReplies.

(** C6 fails as stated.  The routing call answers a plotting request with
    the label "finance"; [route_query] returns it, and it is neither "data"
    nor "research". *)
Lemma route_query_label_outside_enum :
  fst (route_query env_unlisted_route "Plot revenue by month" orchestrator_state)
    = Ret "finance"
  /\ ~ (fst (route_query env_unlisted_route "Plot revenue by month" orchestrator_state)
          = Ret "data"
        \/ fst (route_query env_unlisted_route "Plot revenue by month" orchestrator_state)
          = Ret "research").
Proof.
  split; [reflexivity|].
  intros [H | H]; vm_compute in H; discriminate H.
Qed.

(** C6 (as amended), at a concrete input: the label "finance" is passed
    on. *)
Lemma route_query_outcome_witness :
  exists label st',
    route_query env_unlisted_route "Plot revenue by month" orchestrator_state
      = (Ret label, st')
    /\ (forall e,
          env_llm_route env_unlisted_route (calls orchestrator_state) route_system_prompt
            (route_human "Plot revenue by month") = Raise e ->
          label = "research")
    /\ (forall response,
          env_llm_route env_unlisted_route (calls orchestrator_state) route_system_prompt
            (route_human "Plot revenue by month") = Ret response ->
          label = destination response)
    /\ (route_schema_respected env_unlisted_route -> In label RouteQuery_enum).
Proof.
  exact (route_query_outcome env_unlisted_route "Plot revenue by month" orchestrator_state).
Defined.

(** C8 fails as stated.  On six chunks the keyword call returns no term at
    all, or two terms; [extract_keywords] renders what it got: the empty
    string, or the two terms.  Neither is a list of five to ten terms. *)
Lemma extract_keywords_any_length :
  extract_keywords (env_keywords []) (ingested_state six_docs)
    = (Ret (text_response ""),
       mkState (self (ingested_state six_docs))
         [keywords_call (mkDocument "c0") (mkDocument "c1") (mkDocument "c2")
            (mkDocument "c3")] [])
  /\ extract_keywords (env_keywords ["retrieval"; "chunking"]) (ingested_state six_docs)
     = (Ret (text_response "retrieval, chunking"),
        mkState (self (ingested_state six_docs))
          [keywords_call (mkDocument "c0") (mkDocument "c1") (mkDocument "c2")
             (mkDocument "c3")] [])
  /\ ~ (5 <= length (@nil string) <= 10)
  /\ ~ (5 <= length ["retrieval"; "chunking"] <= 10).
Proof.
  repeat split; try reflexivity; simpl; lia.
Qed.
